(** * News analyzer: utils.py, api.py and app.py

    A shallow embedding of the news-analysis service.  Python values are
    a small dynamic value type, dictionaries are finite maps keyed by
    strings, exceptions are an error type, and the calls the handler
    makes to its collaborators are recorded in a trace.  The third-party
    services (HTTP, the pretrained models, the translation client) are
    the fields of a [World] record, fixed for one request. *)

From Stdlib Require Import ZArith Ascii String.
From stdpp Require Import base option list gmap strings pretty.

Local Open Scope string_scope.
Local Open Scope Z_scope.
Local Set Warnings "-register-all".

(** ** Python values and exceptions *)

Inductive pyval : Type :=
| VNone
| VBool (b : bool)
| VInt (z : Z)
| VStr (s : string)
| VList (l : list pyval)
| VDict (d : gmap string pyval).

(** Every exception of the model is an instance of Python's [Exception]
    (FastAPI's [HTTPException] included), so an [except Exception]
    clause catches each of them. *)
Inductive exn : Type :=
| TypeError (msg : string)
| KeyError (key : string)
| AttributeError (msg : string)
| IndexError (msg : string)
| RuntimeError (msg : string)
| RequestException (msg : string)
| HTTPError (msg : string)
| ServiceError (msg : string)
| HTTPException (status_code : Z) (detail : string).

Inductive result (A : Type) : Type :=
| Ok (a : A)
| Raise (e : exn).
Arguments Ok {A} a.
Arguments Raise {A} e.

#[global] Instance result_ret : MRet result := λ A a, Ok a.
#[global] Instance result_bind : MBind result := λ A B k r,
  match r with
  | Ok a => k a
  | Raise e => Raise e
  end.

(** [try: r except Exception as e: h e] *)
Definition try_except {A} (r : result A) (h : exn → result A) : result A :=
  match r with
  | Ok a => Ok a
  | Raise e => h e
  end.

(** The double quote character, for the strings that contain one. *)
Definition dquote : string := String (ascii_of_nat 34) "".
Definition squote : string := "'".

(** [str(e)]; for an [HTTPException], Starlette's "status: detail". *)
Definition exn_str (e : exn) : string :=
  match e with
  | TypeError m | AttributeError m | IndexError m
  | RuntimeError m | RequestException m | HTTPError m | ServiceError m => m
  | KeyError k => squote +:+ k +:+ squote
  | HTTPException c d => pretty c +:+ ": " +:+ d
  end.

(** ** Text

    A Python [str] is a sequence of code points; a [string] holds its
    UTF-8 bytes.  [chars] cuts the bytes into characters, one lead byte
    with the continuation bytes that follow it, so that lengths, slices
    and [strip] count characters as Python does. *)

Definition is_continuation (a : ascii) : bool :=
  let n := N_of_ascii a in ((128 <=? n) && (n <? 192))%N.

Fixpoint chars (s : string) : list string :=
  match s with
  | EmptyString => []
  | String a s' =>
      match s' with
      | String b _ =>
          if is_continuation b then
            match chars s' with
            | c :: rest => String a c :: rest
            | [] => [String a ""]
            end
          else String a "" :: chars s'
      | EmptyString => [String a ""]
      end
  end.

Fixpoint concat_str (l : list string) : string :=
  match l with
  | [] => ""
  | c :: rest => c +:+ concat_str rest
  end.

(** [len(s)] *)
Definition py_len (s : string) : nat := length (chars s).

(** [s[:n]] for [n >= 0] *)
Definition str_take (n : nat) (s : string) : string :=
  concat_str (take n (chars s)).

(** The characters [str.strip()] removes: those Python counts as
    whitespace (U+0009 to U+000D, U+001C to U+0020, U+0085, U+00A0,
    U+1680, U+2000 to U+200A, U+2028, U+2029, U+202F, U+205F, U+3000),
    in UTF-8. *)
Definition is_space (c : string) : bool :=
  match N_of_ascii <$> list_ascii_of_string c with
  | [n] => (((9 <=? n) && (n <=? 13)) || ((28 <=? n) && (n <=? 32)))%N
  | [194; n] => ((n =? 133) || (n =? 160))%N
  | [225; 154; 128] => true
  | [226; 128; n] =>
      (((128 <=? n) && (n <=? 138)) || (n =? 168) || (n =? 169) || (n =? 175))%N
  | [226; 129; 159] => true
  | [227; 128; 128] => true
  | _ => false
  end%N.

Fixpoint lstrip_chars (l : list string) : list string :=
  match l with
  | c :: rest => if is_space c then lstrip_chars rest else l
  | [] => []
  end.

(** [s.strip()] *)
Definition strip (s : string) : string :=
  concat_str (reverse (lstrip_chars (reverse (lstrip_chars (chars s))))).

(** Truth value of an object, as [not x] and [x or y] test it. *)
Definition py_truthy (v : pyval) : bool :=
  match v with
  | VNone => false
  | VBool b => b
  | VInt z => negb (z =? 0)
  | VStr s => negb (String.eqb s "")
  | VList l => negb (Nat.eqb (length l) 0)
  | VDict d => negb (Nat.eqb (size d) 0)
  end.

(** [v[key]] with a string key. *)
Definition py_getitem (v : pyval) (key : string) : result pyval :=
  match v with
  | VDict d =>
      match d !! key with
      | Some x => Ok x
      | None => Raise (KeyError key)
      end
  | VStr _ => Raise (TypeError "string indices must be integers")
  | VList _ => Raise (TypeError "list indices must be integers or slices, not str")
  | _ => Raise (TypeError "object is not subscriptable")
  end.

(** [v[0]] *)
Definition py_getitem0 (v : pyval) : result pyval :=
  match v with
  | VList (x :: _) => Ok x
  | VList [] => Raise (IndexError "list index out of range")
  | VStr s =>
      match chars s with
      | c :: _ => Ok (VStr c)
      | [] => Raise (IndexError "string index out of range")
      end
  | VDict _ => Raise (KeyError "0")
  | _ => Raise (TypeError "object is not subscriptable")
  end.

(** [v.get(key, dflt)] *)
Definition py_get (v : pyval) (key : string) (dflt : pyval) : result pyval :=
  match v with
  | VDict d => Ok (default dflt (d !! key))
  | _ => Raise (AttributeError "object has no attribute 'get'")
  end.

(** The items a [for] loop over [v] visits. *)
Definition py_iter (v : pyval) : result (list pyval) :=
  match v with
  | VList l => Ok l
  | VStr s => Ok (VStr <$> chars s)
  | VDict d => Ok (VStr <$> (map_to_list d).*1)
  | _ => Raise (TypeError "object is not iterable")
  end.

(** [s.startswith(p)] *)
Fixpoint startswith (s p : string) : bool :=
  match p, s with
  | EmptyString, _ => true
  | String a p', String b s' => if Ascii.eqb a b then startswith s' p' else false
  | String _ _, EmptyString => false
  end.

(** [l[:n]], also for a negative [n], which counts from the end. *)
Definition py_slice_to {A} (n : Z) (l : list A) : list A :=
  if n <? 0 then take (Z.to_nat (Z.of_nat (length l) + n)) l
  else take (Z.to_nat n) l.

(** [sep.join(l)] *)
Fixpoint join (sep : string) (l : list string) : string :=
  match l with
  | [] => ""
  | [x] => x
  | x :: rest => x +:+ sep +:+ join sep rest
  end.


(** ** utils.py *)

(** A function call with positional arguments: each parameter comes with
    its default, if it has one.  A call that leaves a parameter without
    default unbound raises [TypeError], as does one with too many
    arguments. *)
Fixpoint bind_positional (params : list (string * option pyval))
    (args : list pyval) (env : gmap string pyval)
    : option (gmap string pyval * list string) :=
  match params, args with
  | [], [] => Some (env, [])
  | [], _ :: _ => None
  | (p, _) :: params', a :: args' => bind_positional params' args' (<[p:=a]> env)
  | (p, Some d) :: params', [] => bind_positional params' [] (<[p:=d]> env)
  | (p, None) :: params', [] =>
      match bind_positional params' [] env with
      | Some (env', missing) => Some (env', p :: missing)
      | None => None
      end
  end.

Definition py_call {A} (name : string) (params : list (string * option pyval))
    (body : gmap string pyval → result A) (args : list pyval) : result A :=
  match bind_positional params args ∅ with
  | None =>
      Raise (TypeError (name +:+ "() takes at most "
        +:+ pretty (length params) +:+ " positional arguments but "
        +:+ pretty (length args) +:+ " were given"))
  | Some (env, []) => body env
  | Some (_, missing) =>
      Raise (TypeError (name +:+ "() missing "
        +:+ pretty (length missing) +:+ " required positional argument: "
        +:+ join ", " ((λ p, squote +:+ p +:+ squote) <$> missing)))
  end.

Record http_response := {
  status_code : Z;
  text : string
}.

(** What the scraper reads off a parsed page. *)
Record page := {
  (* [soup.title.text], when the page has a title element *)
  pg_title : option string;
  (* the first [<meta name="description">], with its [content] attribute *)
  pg_meta_description : option (option string);
  (* the first [<meta property="og:description">], with its [content] *)
  pg_og_description : option (option string);
  (* [get_text(strip=True)] of the paragraphs of the first [<article>] *)
  pg_article_paragraphs : option (list string);
  (* [get_text(strip=True)] of all paragraphs of the document *)
  pg_paragraphs : list string
}.

(** The services behind the module-level objects of utils.py. *)
Record World := {
  (* [requests.get(news_api_url, params=params).json()] *)
  newsapi : string → gmap string pyval → result pyval;
  (* [requests.get(url, timeout=10)] *)
  requests_get : string → result http_response;
  (* [BeautifulSoup(text, "html.parser")] *)
  html_parser : string → result page;
  (* the [sentiment_analyzer] pipeline *)
  sentiment_analyzer : string → result pyval;
  (* [nlp(text).ents], each as [(ent.text, ent.label_)] *)
  nlp : string → result (list (string * string));
  (* [translator.translate(text, dest='hi').text] *)
  translate : string → result string;
  (* tokenizer, model and [sf.write] to a fresh temporary file: its name *)
  tts_synthesize : string → result string;
  (* [repr] of a list or a dict, as an f-string prints one *)
  py_repr : pyval → string
}.

Definition raise_for_status (r : http_response) : result unit :=
  if (400 <=? status_code r) && (status_code r <? 600)
  then Raise (HTTPError (pretty (status_code r) +:+ " Error"))
  else Ok ().

Section Utils.
Variable w : World.

Definition fetch_news_articles_params : list (string * option pyval) :=
  [("company", None); ("api_key", None); ("max_results", Some (VInt 10))].

(** [str(v)], as an f-string formats a value. *)
Definition py_str (v : pyval) : string :=
  match v with
  | VStr s => s
  | VNone => "None"
  | VBool true => "True"
  | VBool false => "False"
  | VInt z => pretty z
  | VList _ | VDict _ => py_repr w v
  end.

(** The body, with every parameter bound in [env]. *)
Definition fetch_news_articles_body (env : gmap string pyval) : result pyval :=
  let company := default VNone (env !! "company") in
  let api_key := default VNone (env !! "api_key") in
  let max_results := default VNone (env !! "max_results") in
  let news_api_url := "https://newsapi.org/v2/everything" in
  let keywords :=
    "stock OR market OR shares OR revenue OR earnings OR merger OR acquisition" in
  let params : gmap string pyval :=
    {[ "q" := VStr (dquote +:+ py_str company +:+ dquote +:+ " AND (" +:+ keywords +:+ ")");
       "language" := VStr "en";
       "pageSize" := max_results;
       "sortBy" := VStr "publishedAt";
       "apiKey" := api_key ]} in
  data ← newsapi w news_api_url params;
  py_get data "articles" (VList []).

(** A call of [fetch_news_articles] with the positional arguments [args]. *)
Definition fetch_news_articles (args : list pyval) : result pyval :=
  py_call "fetch_news_articles" fetch_news_articles_params
    fetch_news_articles_body args.

(** [tag and tag.get("content")]: the attribute, when the test holds. *)
Definition tag_content (tag : option (option string)) : option string :=
  match tag with
  | Some (Some c) => if String.eqb c "" then None else Some c
  | _ => None
  end.

Definition extract_content (soup : page) : string :=
  let content :=
    match tag_content (pg_meta_description soup) with
    | Some c => strip c
    | None =>
        match tag_content (pg_og_description soup) with
        | Some c => strip c
        | None => ""
        end
    end in
  if String.eqb content "" || (py_len content <? 100)%nat then
    let paragraphs :=
      match pg_article_paragraphs soup with
      | Some ps => ps
      | None => pg_paragraphs soup
      end in
    join (String (ascii_of_nat 10) "") paragraphs
  else content.

(** The body of the [try] of [scrape_article_content]. *)
Definition scrape_article_content_try (url : string) : result pyval :=
  response ← requests_get w url;
  _ ← raise_for_status response;
  soup ← html_parser w (text response);
  let title :=
    match pg_title soup with
    | Some t => strip t
    | None => "No title available"
    end in
  let content := extract_content soup in
  Ok (VDict {[ "title" := VStr title;
               "content" := VStr (if String.eqb content ""
                                  then "No content available."
                                  else content) ]}).

Definition scrape_article_content (url : string) : result pyval :=
  try_except (scrape_article_content_try url)
    (λ e, Ok (VDict {[ "title" := VStr "Error";
                       "content" := VStr ("Error scraping article: " +:+ exn_str e) ]})).

Definition label_map : gmap string string :=
  {[ "LABEL_0" := "Negative"; "LABEL_1" := "Neutral"; "LABEL_2" := "Positive" ]}.

(** [label_map.get(label, 'Neutral')]; a list or a dict is unhashable. *)
Definition label_map_get (label : pyval) : result string :=
  match label with
  | VStr l => Ok (default "Neutral" (label_map !! l))
  | VList _ | VDict _ => Raise (TypeError "unhashable type")
  | _ => Ok "Neutral"
  end.

Definition analyze_sentiment (text : string) : result string :=
  try_except
    (out ← sentiment_analyzer w (str_take 512 text);
     result ← py_getitem0 out;
     label ← py_getitem result "label";
     label_map_get label)
    (λ e, Raise (RuntimeError ("Sentiment analysis failed: " +:+ exn_str e))).

Definition topic_labels : list string := ["ORG"; "PRODUCT"; "GPE"; "NORP"].

Definition extract_key_topics (text : string) (max_topics : Z) : result (list string) :=
  doc ← nlp w text;
  let entities := (filter (λ ent, ent.2 ∈ topic_labels) doc).*1 in
  Ok (py_slice_to max_topics (elements (list_to_set entities : gset string))).

Definition generate_hindi_tts (text : string) : result string :=
  try_except
    (translated ← translate w text;
     tts_synthesize w translated)
    (λ e, Raise (RuntimeError ("TTS generation failed: " +:+ exn_str e))).
End Utils.

(** ** api.py *)

(** What the handler does to the outside, in order. *)
Inductive event : Type :=
| EvFetch (args : list pyval)
| EvScrape (url : string)
| EvSentiment (text : pyval)
| EvTopics (text : pyval)
| EvTTS (text : string)
| EvLogError (msg : string)
| EvAddTaskRemove (path : string).

(** A computation of the handler: the calls made so far, and a value or
    the exception raised. *)
Definition M (A : Type) : Type := list event * result A.

#[global] Instance M_ret : MRet M := λ A a, ([], Ok a).
#[global] Instance M_bind : MBind M := λ A B k m,
  match m.2 with
  | Ok a => ((m.1 ++ (k a).1)%list, (k a).2)
  | Raise e => (m.1, Raise e)
  end.

Definition emit (ev : event) : M unit := ([ev], Ok ()).
Definition lift {A} (r : result A) : M A := ([], r).
Definition raise {A} (e : exn) : M A := ([], Raise e).

(** [try: m except Exception as e: h e] *)
Definition try_except_M {A} (m : M A) (h : exn → M A) : M A :=
  match m.2 with
  | Ok a => m
  | Raise e => ((m.1 ++ (h e).1)%list, (h e).2)
  end.

(** The names api.py imports from utils. *)
Record Utils := {
  u_fetch_news_articles : list pyval → result pyval;
  u_scrape_article_content : string → result pyval;
  u_analyze_sentiment : string → result string;
  u_extract_key_topics : string → result (list string);
  u_generate_hindi_tts : string → result string
}.

(** utils.py itself; [extract_key_topics] is called with its default
    [max_topics=5]. *)
Definition utils (w : World) : Utils := {|
  u_fetch_news_articles := fetch_news_articles w;
  u_scrape_article_content := scrape_article_content w;
  u_analyze_sentiment := analyze_sentiment w;
  u_extract_key_topics := λ text, extract_key_topics w text 5;
  u_generate_hindi_tts := generate_hindi_tts w
|}.

(** How one iteration of the loop over [news_items] ends. *)
Inductive item_outcome : Type :=
| SkipNotHttp
| SkipEmptyContent
| Appended (article : pyval)
| SkipException (e : exn).

(** The utilities are annotated [text: str]. *)
Definition as_text (v : pyval) : result string :=
  match v with
  | VStr s => Ok s
  | _ => Raise (TypeError "text: str")
  end.

Section Handler.
Variable u : Utils.

(** The body of the inner [try], for one item. *)
Definition process_item_body (item : pyval) : M item_outcome :=
  url ← lift (py_getitem item "url");
  match url with
  | VStr url =>
      if negb (startswith url "http") then mret SkipNotHttp
      else
        _ ← emit (EvScrape url);
        article ← lift (u_scrape_article_content u url);
        content ← lift (py_getitem article "content");
        if negb (py_truthy content) then mret SkipEmptyContent
        else
          title ← lift (py_getitem article "title");
          summary ← lift (py_getitem article "summary");
          content ← lift (py_getitem article "content");
          _ ← emit (EvSentiment content);
          sentiment ← lift (as_text content ≫= u_analyze_sentiment u);
          content ← lift (py_getitem article "content");
          _ ← emit (EvTopics content);
          topics ← lift (as_text content ≫= u_extract_key_topics u);
          mret (Appended (VDict {[ "title" := title;
                                   "summary" := summary;
                                   "sentiment" := VStr sentiment;
                                   "topics" := VList (VStr <$> topics) ]}))
  | _ => raise (AttributeError "object has no attribute 'startswith'")
  end.

Definition process_item (item : pyval) : M item_outcome :=
  try_except_M (process_item_body item)
    (λ e, _ ← emit (EvLogError ("Article processing failed: " +:+ exn_str e));
          mret (SkipException e)).

(** The [for] loop, threading [processed_articles]. *)
Fixpoint process_items (items : list pyval) (processed_articles : list pyval)
    : M (list pyval) :=
  match items with
  | [] => mret processed_articles
  | item :: items' =>
      o ← process_item item;
      match o with
      | Appended a => process_items items' (processed_articles ++ [a])%list
      | _ => process_items items' processed_articles
      end
  end.

Definition analyze_body (company : string) : M pyval :=
  _ ← emit (EvFetch [VStr company]);
  news_items ← lift (u_fetch_news_articles u [VStr company]);
  items ← lift (py_iter news_items);
  processed_articles ← process_items items [];
  if negb (py_truthy (VList processed_articles)) then
    raise (HTTPException 404 "No articles could be processed")
  else
    let tts_summary :=
      company +:+ " analysis: " +:+ pretty (length processed_articles)
              +:+ " articles processed" in
    _ ← emit (EvTTS tts_summary);
    tts_path ← lift (u_generate_hindi_tts u tts_summary);
    _ ← emit (EvAddTaskRemove tts_path);
    mret (VDict {[ "company" := VStr company;
                   "articles" := VList processed_articles;
                   "tts_path" := VStr tts_path ]}).

(** [GET /analyze?company=...] *)
Definition analyze_company_news (company : string) : M pyval :=
  try_except_M (analyze_body company)
    (λ e, _ ← emit (EvLogError ("Critical error: " +:+ exn_str e));
          raise (HTTPException 500 "Internal server error")).
End Handler.

(** ** app.py *)

(** The reply of the backend as the frontend's [requests.get] sees it. *)
Record api_response := {
  api_status : Z;
  api_json : pyval
}.

(** FastAPI's rendering of the handler's outcome. *)
Definition http_reply (r : result pyval) : api_response :=
  match r with
  | Ok v => {| api_status := 200; api_json := v |}
  | Raise (HTTPException c d) =>
      {| api_status := c; api_json := VDict {[ "detail" := VStr d ]} |}
  | Raise _ =>
      {| api_status := 500; api_json := VDict {[ "detail" := VStr "Internal Server Error" ]} |}
  end.

Record expander := {
  ex_number : nat;
  ex_title : pyval;
  ex_summary : pyval;
  ex_sentiment : pyval;
  ex_topics : string
}.

Record screen := {
  sc_header : pyval;
  sc_articles : list expander;
  (* [API_BASE] and the path of the second GET *)
  sc_audio : string * pyval;
  (* [tts_response.content], handed to [st.audio] *)
  sc_audio_content : string
}.

(** The strings [", ".join(v)] joins. *)
Fixpoint as_strings (items : list pyval) : result (list string) :=
  match items with
  | [] => Ok []
  | VStr s :: rest => l ← as_strings rest; Ok (s :: l)
  | _ :: _ => Raise (TypeError "sequence item: expected str instance")
  end.

Definition str_items (v : pyval) : result (list string) :=
  items ← py_iter v;
  as_strings items.

Definition show_article (idx : nat) (article : pyval) : result expander :=
  title ← py_getitem article "title";
  summary ← py_getitem article "summary";
  sentiment ← py_getitem article "sentiment";
  topics ← py_getitem article "topics" ≫= str_items;
  Ok {| ex_number := idx + 1; ex_title := title; ex_summary := summary;
        ex_sentiment := sentiment; ex_topics := join ", " topics |}.

Fixpoint show_articles (idx : nat) (articles : list pyval) : result (list expander) :=
  match articles with
  | [] => Ok []
  | a :: rest =>
      e ← show_article idx a;
      es ← show_articles (S idx) rest;
      Ok (e :: es)
  end.

(** The display of [data = response.json()]; [audio_get api_base path]
    is the content of [requests.get(f"{API_BASE}{path}")], the second
    GET. *)
Definition show_results (api_base : string) (data : pyval)
    (audio_get : string → pyval → result string) : result screen :=
  company ← py_getitem data "company";
  articles ← py_getitem data "articles" ≫= py_iter;
  shown ← show_articles 0 articles;
  tts_url ← py_getitem data "tts_url";
  content ← audio_get api_base tts_url;
  Ok {| sc_header := company; sc_articles := shown;
        sc_audio := (api_base, tts_url); sc_audio_content := content |}.

Definition is_request_exception (e : exn) : bool :=
  match e with
  | RequestException _ | HTTPError _ => true
  | _ => false
  end.

Inductive ui : Type :=
| UiScreen (s : screen)
| UiError (msg : string).

Definition api_raise_for_status (r : api_response) : result unit :=
  if (400 <=? api_status r) && (api_status r <? 600)
  then Raise (HTTPError (pretty (api_status r) +:+ " Error"))
  else Ok ().

(** [main], after the button is pressed; [Raise] is an exception that
    leaves [main]. *)
Definition main (api_base : string) (reply : result api_response)
    (audio_get : string → pyval → result string) : result ui :=
  match (response ← reply;
         _ ← api_raise_for_status response;
         show_results api_base (api_json response) audio_get) with
  | Ok s => Ok (UiScreen s)
  | Raise e =>
      if is_request_exception e
      then Ok (UiError ("API request failed: " +:+ exn_str e))
      else Raise e
  end.

(** ** Vocabulary of the properties *)

(** The record the scraper returns: exactly a title and a content. *)
Definition scraped (title content : string) : pyval :=
  VDict {[ "title" := VStr title; "content" := VStr content ]}.

(** Where the content of a scraped record comes from. *)
Inductive content_source (w : World) (url : string) (content : string) : Prop :=
| FromPage (response : http_response) (soup : page) :
    requests_get w url = Ok response →
    html_parser w (text response) = Ok soup →
    content = extract_content soup →
    content_source w url content
| Placeholder : content = "No content available." → content_source w url content
| ErrorText (e : exn) :
    scrape_article_content_try w url = Raise e →
    content = "Error scraping article: " +:+ exn_str e →
    content_source w url content.

Definition sentiments : list string := ["Negative"; "Neutral"; "Positive"].
Definition raw_labels : list string := ["LABEL_0"; "LABEL_1"; "LABEL_2"].

(** The scraper is called on http(s) URLs only. *)
Definition scrape_guarded (ev : event) : Prop :=
  match ev with
  | EvScrape url => startswith url "http" = true
  | _ => True
  end.

(** The shape of an element of [processed_articles]. *)
Definition processed_article (a : pyval) : Prop :=
  ∃ title summary sentiment topics,
    a = VDict {[ "title" := title; "summary" := summary;
                 "sentiment" := VStr sentiment;
                 "topics" := VList (VStr <$> topics) ]}.

(** The handler with the API key passed to the fetcher as a second
    positional argument; everything else is utils.py. *)
Definition utils_with_key (w : World) (api_key : string) : Utils := {|
  u_fetch_news_articles := λ args, fetch_news_articles w (args ++ [VStr api_key])%list;
  u_scrape_article_content := scrape_article_content w;
  u_analyze_sentiment := analyze_sentiment w;
  u_extract_key_topics := λ text, extract_key_topics w text 5;
  u_generate_hindi_tts := generate_hindi_tts w
|}.

(** ** Vocabulary of the further properties *)

Definition news_api_url : string := "https://newsapi.org/v2/everything".

(** The query parameters [fetch_news_articles] sends. *)
Definition news_query (company : string) (api_key max_results : pyval)
    : gmap string pyval :=
  {[ "q" := VStr (dquote +:+ company +:+ dquote +:+
        " AND (stock OR market OR shares OR revenue OR earnings OR merger OR acquisition)");
     "language" := VStr "en";
     "pageSize" := max_results;
     "sortBy" := VStr "publishedAt";
     "apiKey" := api_key ]}.

(** The URL the loop hands to the scraper for an item, if it does. *)
Definition scrape_target (item : pyval) : option string :=
  match py_getitem item "url" with
  | Ok (VStr url) => if startswith url "http" then Some url else None
  | _ => None
  end.

(** The scraper calls of a trace, in order. *)
Definition scraped_urls (tr : list event) : list string :=
  omap (λ ev, match ev with EvScrape url => Some url | _ => None end) tr.

(** The events the loop over the references can produce. *)
Definition loop_event (ev : event) : Prop :=
  match ev with
  | EvScrape _ | EvSentiment _ | EvTopics _ | EvLogError _ => True
  | _ => False
  end.

Definition not_scrape (ev : event) : Prop :=
  match ev with
  | EvScrape _ => False
  | _ => True
  end.

(** The article the iteration for [item] appends, if it does, and the
    articles of a list of references. *)
Definition item_article (u : Utils) (item : pyval) : option pyval :=
  match (process_item u item).2 with
  | Ok (Appended a) => Some a
  | _ => None
  end.

Definition articles_of (u : Utils) (items : list pyval) : list pyval :=
  omap (item_article u) items.

(** The calls and log lines of the iterations, one after the other. *)
Definition loop_trace (u : Utils) (items : list pyval) : list event :=
  items ≫= λ item, (process_item u item).1.

(** The line the narrator is given. *)
Definition tts_summary_of (company : string) (n : nat) : string :=
  company +:+ " analysis: " +:+ pretty n +:+ " articles processed".

(** The answer of the handler once the fetch has returned [items]. *)
Definition answer_after_fetch (u : Utils) (company : string) (items : list pyval)
    : M pyval :=
  let articles := articles_of u items in
  let summary := tts_summary_of company (length articles) in
  match articles with
  | [] =>
      ((EvFetch [VStr company] :: loop_trace u items ++
        [EvLogError "Critical error: 404: No articles could be processed"])%list,
       Raise (HTTPException 500 "Internal server error"))
  | _ :: _ =>
      match u_generate_hindi_tts u summary with
      | Ok path =>
          ((EvFetch [VStr company] :: loop_trace u items ++
            [EvTTS summary; EvAddTaskRemove path])%list,
           Ok (VDict {[ "company" := VStr company;
                        "articles" := VList articles;
                        "tts_path" := VStr path ]}))
      | Raise e =>
          ((EvFetch [VStr company] :: loop_trace u items ++
            [EvTTS summary; EvLogError ("Critical error: " +:+ exn_str e)])%list,
           Raise (HTTPException 500 "Internal server error"))
      end
  end.

(** The paragraphs the scraper falls back to. *)
Definition fallback_text (soup : page) : string :=
  join (String (ascii_of_nat 10) "")
    (default (pg_paragraphs soup) (pg_article_paragraphs soup)).

(** The meta description, or else the Open Graph one, stripped. *)
Definition description_of (soup : page) : string :=
  match tag_content (pg_meta_description soup) with
  | Some c => strip c
  | None => default "" (strip <$> tag_content (pg_og_description soup))
  end.

(** The title of a scraped page. *)
Definition title_of (soup : page) : string :=
  match pg_title soup with
  | Some t => strip t
  | None => "No title available"
  end.

Definition with_og (soup : page) (og : option (option string)) : page :=
  {| pg_title := pg_title soup;
     pg_meta_description := pg_meta_description soup;
     pg_og_description := og;
     pg_article_paragraphs := pg_article_paragraphs soup;
     pg_paragraphs := pg_paragraphs soup |}.

(** The qualifying entity texts of a document, without duplicates, in the
    order the set yields them. *)
Definition distinct_topics (doc : list (string * string)) : list string :=
  elements (list_to_set (filter (λ ent, ent.2 ∈ topic_labels) doc).*1 : gset string).

(** An article of the response whose sentiment and topics are in range. *)
Definition well_formed_article (a : pyval) : Prop :=
  ∃ title summary sentiment topics,
    a = VDict {[ "title" := title; "summary" := summary;
                 "sentiment" := VStr sentiment;
                 "topics" := VList (VStr <$> topics) ]} ∧
    sentiment ∈ sentiments ∧ (length topics ≤ 5)%nat ∧ NoDup topics.

(** ** Concrete requests *)

Module Scenario.
Definition reference (url title : string) : pyval :=
  VDict {[ "url" := VStr url; "title" := VStr title;
           "publishedAt" := VStr "2025-03-01T09:00:00Z" ]}.

Definition ftp_ref : pyval := reference "ftp://files.example/tesla.txt" "Mirror".
Definition empty_ref : pyval := reference "http://blank.example/tesla" "Blank".
Definition good_ref : pyval := reference "https://news.example/tesla" "Tesla shares rise".
Definition down_ref : pyval := reference "https://down.example/tesla" "Unreachable".

Definition tesla_page : page := {|
  pg_title := Some " Tesla shares rise ";
  pg_meta_description := Some (Some "Tesla shares rose after earnings.");
  pg_og_description := None;
  pg_article_paragraphs := Some ["Tesla shares rose."; "Revenue beat estimates in the US."];
  pg_paragraphs := ["Menu"; "Tesla shares rose."; "Revenue beat estimates in the US."]
|}.

(** A world that answers every news query with [articles]. *)
Definition world (articles : list pyval) : World := {|
  newsapi := λ _ _, Ok (VDict {[ "status" := VStr "ok"; "articles" := VList articles ]});
  requests_get := λ url,
    if String.eqb url "https://down.example/tesla"
    then Raise (RequestException "Read timed out")
    else Ok {| status_code := 200; text := "<html>" |};
  html_parser := λ _, Ok tesla_page;
  sentiment_analyzer := λ text,
    if String.eqb text "odd" then Ok (VList [VDict {[ "label" := VStr "LABEL_7" ]}])
    else Ok (VList [VDict {[ "label" := VStr "LABEL_2" ]}]);
  nlp := λ _, Ok [("Tesla", "ORG"); ("Elon Musk", "PERSON"); ("US", "GPE");
                  ("Tesla", "ORG"); ("Model 3", "PRODUCT"); ("Europeans", "NORP");
                  ("BYD", "ORG"); ("China", "GPE"); ("Ford", "ORG");
                  ("Monday", "DATE")];
  translate := λ text, Ok text;
  tts_synthesize := λ _, Ok "/tmp/tmpk3v9.wav";
  py_repr := λ _, "[]"
|}.

(** The three references of the Tesla scenario; the second one scrapes
    to an empty content. *)
Definition tesla_refs : list pyval := [ftp_ref; empty_ref; good_ref].

Definition tesla_utils : Utils := {|
  u_fetch_news_articles := λ _, Ok (VList tesla_refs);
  u_scrape_article_content := λ url,
    if String.eqb url "http://blank.example/tesla" then Ok (scraped "Blank" "")
    else scrape_article_content (world tesla_refs) url;
  u_analyze_sentiment := analyze_sentiment (world tesla_refs);
  u_extract_key_topics := λ text, extract_key_topics (world tesla_refs) text 5;
  u_generate_hindi_tts := generate_hindi_tts (world tesla_refs)
|}.

(** A scraper that does return a ['summary']. *)
Definition summary_utils : Utils := {|
  u_fetch_news_articles := λ _, Ok (VList [good_ref]);
  u_scrape_article_content := λ _,
    Ok (VDict {[ "title" := VStr "Tesla shares rise";
                 "summary" := VStr "Shares rose.";
                 "content" := VStr "Tesla shares rose after earnings." ]});
  u_analyze_sentiment := analyze_sentiment (world [good_ref]);
  u_extract_key_topics := λ text, extract_key_topics (world [good_ref]) text 5;
  u_generate_hindi_tts := generate_hindi_tts (world [good_ref])
|}.

(** The Tesla scenario with a scraper that also returns a ['summary']. *)
Definition tesla_utils_summary : Utils := {|
  u_fetch_news_articles := λ _, Ok (VList tesla_refs);
  u_scrape_article_content := λ url,
    if String.eqb url "http://blank.example/tesla"
    then Ok (VDict {[ "title" := VStr "Blank"; "summary" := VStr ""; "content" := VStr "" ]})
    else Ok (VDict {[ "title" := VStr "Tesla shares rise";
                      "summary" := VStr "Shares rose.";
                      "content" := VStr "Tesla shares rose after earnings." ]});
  u_analyze_sentiment := analyze_sentiment (world tesla_refs);
  u_extract_key_topics := λ text, extract_key_topics (world tesla_refs) text 5;
  u_generate_hindi_tts := generate_hindi_tts (world tesla_refs)
|}.

Definition tesla_article : pyval :=
  VDict {[ "title" := VStr "Tesla shares rise";
           "summary" := VStr "Shares rose.";
           "sentiment" := VStr "Positive";
           "topics" := VList (VStr <$> ["China"; "Model 3"; "US"; "Europeans"; "Ford"]) ]}.

(** What [summary_utils] answers for Tesla. *)
Definition summary_response : pyval :=
  VDict {[ "company" := VStr "Tesla";
           "articles" := VList [tesla_article];
           "tts_path" := VStr "/tmp/tmpk3v9.wav" ]}.

Definition long_text (last : string) : string :=
  string_of_list_ascii (replicate 512 "a"%char) +:+ last.
(** Further worlds: a news API that answers with an error payload, one
    that is unreachable, one
    whose ['articles'] is null, a classifier without output, a site that
    serves [pg] with [status], and a narrator that fails. *)
Definition error_world : World := {|
  newsapi := λ _ _, Ok (VDict {[ "status" := VStr "error"; "code" := VStr "apiKeyInvalid" ]});
  requests_get := requests_get (world []);
  html_parser := html_parser (world []);
  sentiment_analyzer := λ _, Ok (VList []);
  nlp := λ _, Ok [("Tesla", "ORG"); ("US", "GPE"); ("Tesla", "ORG"); ("Monday", "DATE")];
  translate := λ _, Raise (ServiceError "translation unavailable");
  tts_synthesize := tts_synthesize (world []);
  py_repr := py_repr (world [])
|}.

Definition null_world : World := {|
  newsapi := λ _ _, Ok (VDict {[ "status" := VStr "ok"; "articles" := VNone ]});
  requests_get := requests_get (world []);
  html_parser := html_parser (world []);
  sentiment_analyzer := sentiment_analyzer (world []);
  nlp := nlp (world []);
  translate := translate (world []);
  tts_synthesize := tts_synthesize (world []);
  py_repr := py_repr (world [])
|}.

Definition offline_world : World := {|
  newsapi := λ _ _, Raise (RequestException "Connection refused");
  requests_get := λ _, Raise (RequestException "Connection refused");
  html_parser := html_parser (world []);
  sentiment_analyzer := λ _, Raise (ServiceError "model not loaded");
  nlp := λ _, Raise (ServiceError "model not loaded");
  translate := translate (world []);
  tts_synthesize := λ _, Raise (ServiceError "disk full");
  py_repr := py_repr (world [])
|}.

Definition site (pg : page) (status : Z) : World := {|
  newsapi := newsapi (world []);
  requests_get := λ _, Ok {| status_code := status; text := "<html>" |};
  html_parser := λ _, Ok pg;
  sentiment_analyzer := sentiment_analyzer (world []);
  nlp := nlp (world []);
  translate := translate (world []);
  tts_synthesize := tts_synthesize (world []);
  py_repr := py_repr (world [])
|}.

Definition long_description : string :=
  "Tesla shares rose sharply on Monday after the company reported quarterly revenue and earnings well above market expectations.".

Definition long_page : page := {|
  pg_title := None;
  pg_meta_description := Some (Some ("  " +:+ long_description +:+ " "));
  pg_og_description := Some (Some "Open Graph text");
  pg_article_paragraphs := None;
  pg_paragraphs := ["Cookie notice"]
|}.

Definition short_page : page := {|
  pg_title := Some "Tesla";
  pg_meta_description := Some (Some "Tesla shares rose.");
  pg_og_description := Some (Some long_description);
  pg_article_paragraphs := None;
  pg_paragraphs := []
|}.

(** utils.py with a scraper that returns a ['summary'] and a narrator
    that fails. *)
Definition mute_utils : Utils := {|
  u_fetch_news_articles := λ _, Ok (VList tesla_refs);
  u_scrape_article_content := u_scrape_article_content tesla_utils_summary;
  u_analyze_sentiment := analyze_sentiment (world tesla_refs);
  u_extract_key_topics := λ text, extract_key_topics (world tesla_refs) text 5;
  u_generate_hindi_tts := generate_hindi_tts error_world
|}.

(** utils.py with a scraper that returns a ['summary'] and a classifier
    that is not loaded. *)
Definition deaf_utils : Utils := {|
  u_fetch_news_articles := λ _, Ok (VList tesla_refs);
  u_scrape_article_content := u_scrape_article_content tesla_utils_summary;
  u_analyze_sentiment := analyze_sentiment offline_world;
  u_extract_key_topics := λ text, extract_key_topics (world tesla_refs) text 5;
  u_generate_hindi_tts := generate_hindi_tts (world tesla_refs)
|}.

(** The audio server: it serves a path that is a string. *)
Definition audio_server (api_base : string) (path : pyval) : result string :=
  match path with
  | VStr _ => Ok "RIFF"
  | _ => Raise (RequestException "Invalid URL")
  end.

(** Text outside ASCII: U+00E9 and the no-break space U+00A0, in UTF-8. *)
Definition e_acute : string := String (ascii_of_nat 195) (String (ascii_of_nat 169) "").
Definition nbsp : string := String (ascii_of_nat 194) (String (ascii_of_nat 160) "").

Definition accents (n : nat) : string := concat_str (replicate n e_acute).

Definition accent_text (last : string) : string := accents 512 +:+ last.

Definition accent_page : page := {|
  pg_title := Some (nbsp +:+ "Tesla" +:+ nbsp);
  pg_meta_description := Some (Some (accents 60));
  pg_og_description := None;
  pg_article_paragraphs := None;
  pg_paragraphs := ["Le texte."]
|}.

Definition long_accent_page : page := {|
  pg_title := None;
  pg_meta_description := Some (Some (nbsp +:+ accents 100 +:+ " "));
  pg_og_description := None;
  pg_article_paragraphs := None;
  pg_paragraphs := ["Le texte."]
|}.
End Scenario.

(** * Properties *)

(** ** The handler monad *)

Lemma bind_lift_ok {A B} (a : A) (k : A → M B) : lift (Ok a) ≫= k = k a.
Proof. unfold mbind, M_bind, lift; simpl. by destruct (k a). Qed.

Lemma bind_lift_raise {A B} (e : exn) (k : A → M B) :
  lift (Raise e) ≫= k = ([], Raise e).
Proof. reflexivity. Qed.

Lemma bind_emit {B} (ev : event) (k : unit → M B) :
  emit ev ≫= k = (ev :: (k ()).1, (k ()).2).
Proof. reflexivity. Qed.

Lemma bind_trace {A B} (P : event → Prop) (m : M A) (k : A → M B) :
  Forall P m.1 → (∀ a, m.2 = Ok a → Forall P (k a).1) → Forall P (m ≫= k).1.
Proof.
  intros Hm Hk. unfold mbind, M_bind. destruct m as [tr [a|e]]; simpl in *.
  - apply Forall_app; split; [done | by apply Hk].
  - done.
Qed.

Lemma try_except_trace {A} (P : event → Prop) (m : M A) (h : exn → M A) :
  Forall P m.1 → (∀ e, m.2 = Raise e → Forall P (h e).1) →
  Forall P (try_except_M m h).1.
Proof.
  intros Hm Hh. unfold try_except_M. destruct m as [tr [a|e]]; simpl in *.
  - done.
  - apply Forall_app; split; [done | by apply Hh].
Qed.

(** ** Strings *)

Lemma app_nonempty (a : ascii) (s t : string) : String a s +:+ t ≠ "".
Proof. discriminate. Qed.

Lemma eqb_empty_false (s : string) : String.eqb s "" = false → s ≠ "".
Proof. intros H ->. discriminate. Qed.

Lemma truthy_str (s : string) : s ≠ "" → py_truthy (VStr s) = true.
Proof. intros H. simpl. destruct s; [done | reflexivity]. Qed.

(** Cutting a text into characters loses nothing. *)
Lemma chars_concat (s : string) : concat_str (chars s) = s.
Proof.
  induction s as [|a s IH]; [done|].
  destruct s as [|b t]; [done|].
  change (chars (String a (String b t)))
    with (if is_continuation b
          then match chars (String b t) with
               | c :: rest => String a c :: rest
               | [] => [String a ""]
               end
          else String a "" :: chars (String b t)).
  destruct (is_continuation b).
  - destruct (chars (String b t)) as [|c rest]; [done|].
    cbn [concat_str] in IH.
    change (String a (c +:+ concat_str rest) = String a (String b t)).
    by rewrite IH.
  - change (String a (concat_str (chars (String b t))) = String a (String b t)).
    by rewrite IH.
Qed.

Lemma str_app_assoc (s1 s2 s3 : string) :
  (s1 +:+ s2) +:+ s3 = s1 +:+ (s2 +:+ s3).
Proof.
  induction s1 as [|a s1 IH]; [done|].
  change (String a ((s1 +:+ s2) +:+ s3) = String a (s1 +:+ (s2 +:+ s3))).
  by rewrite IH.
Qed.

Lemma concat_str_app (l1 l2 : list string) :
  concat_str (l1 ++ l2) = concat_str l1 +:+ concat_str l2.
Proof.
  induction l1 as [|c l1 IH]; [done|].
  change (c +:+ concat_str (l1 ++ l2) = (c +:+ concat_str l1) +:+ concat_str l2).
  by rewrite IH, str_app_assoc.
Qed.

(** A slice [s[:n]] is the text itself when it has at most [n]
    characters, and a prefix of it in any case. *)
Lemma str_take_all (n : nat) (s : string) :
  (py_len s ≤ n)%nat → str_take n s = s.
Proof.
  intros H. unfold str_take, py_len in *. rewrite take_ge by done.
  apply chars_concat.
Qed.

Lemma str_take_prefix (n : nat) (s : string) :
  s = str_take n s +:+ concat_str (drop n (chars s)).
Proof.
  unfold str_take. by rewrite <- concat_str_app, take_drop, chars_concat.
Qed.

(** Lengths and slices count characters, not bytes: 60 times U+00E9 is
    60 long, a text of 257 characters is not cut at 512, and two such
    texts that differ in their last character differ after the cut. *)
Example text_counts_characters :
  py_len (Scenario.accents 60) = 60%nat ∧
  str_take 512 (Scenario.accents 256 +:+ "x") = Scenario.accents 256 +:+ "x" ∧
  String.eqb (str_take 512 (Scenario.accents 256 +:+ "x"))
             (str_take 512 (Scenario.accents 256 +:+ "y")) = false ∧
  py_len (str_take 512 (Scenario.accent_text "x")) = 512%nat.
Proof. repeat split; vm_compute; reflexivity. Qed.

(** [strip] removes the whitespace of Unicode, a no-break space too. *)
Example strip_unicode :
  strip (Scenario.nbsp +:+ " Tesla" +:+ Scenario.nbsp) = "Tesla".
Proof. vm_compute. reflexivity. Qed.

(** ** utils.py *)

(** C2: the handler calls the fetcher with the company name alone, the
    fetcher's [api_key] has no default, so the call raises [TypeError] on
    every request and the endpoint always answers with the generic 500. *)
Theorem analyze_always_500 (w : World) (company : string) :
  (("api_key", None) ∈ fetch_news_articles_params) ∧
  (∃ msg, fetch_news_articles w [VStr company] = Raise (TypeError msg)) ∧
  (∃ msg, analyze_company_news (utils w) company =
     ([EvFetch [VStr company]; EvLogError ("Critical error: " +:+ msg)],
      Raise (HTTPException 500 "Internal server error"))).
Proof.
  split; [|split].
  - unfold fetch_news_articles_params. set_solver.
  - eexists. reflexivity.
  - eexists. reflexivity.
Qed.

Lemma scraped_content (title content : string) :
  py_getitem (scraped title content) "content" = Ok (VStr content).
Proof. reflexivity. Qed.

Lemma scraped_title (title content : string) :
  py_getitem (scraped title content) "title" = Ok (VStr title).
Proof. reflexivity. Qed.

Lemma scraped_no_summary (title content : string) :
  py_getitem (scraped title content) "summary" = Raise (KeyError "summary").
Proof. reflexivity. Qed.

Lemma scrape_raises (w : World) (url : string) (e : exn) :
  scrape_article_content_try w url = Raise e →
  scrape_article_content w url =
    Ok (scraped "Error" ("Error scraping article: " +:+ exn_str e)).
Proof. intros H. unfold scrape_article_content. by rewrite H. Qed.

Lemma scrape_article_content_total (w : World) (url : string) :
  ∃ title content,
    scrape_article_content w url = Ok (scraped title content) ∧
    content ≠ "" ∧ content_source w url content.
Proof.
  destruct (scrape_article_content_try w url) as [v|e] eqn:Htry.
  - unfold scrape_article_content. rewrite Htry. simpl.
    unfold scrape_article_content_try in Htry.
    destruct (requests_get w url) as [response|] eqn:Hget; [|done].
    simpl in Htry. destruct (raise_for_status response) as [[]|]; [|done].
    simpl in Htry.
    destruct (html_parser w (text response)) as [soup|] eqn:Hparse; [|done].
    simpl in Htry. injection Htry as <-.
    destruct (String.eqb (extract_content soup) "") eqn:Hc.
    + eexists _, _; split; [reflexivity|]. split; [done | by apply Placeholder].
    + apply eqb_empty_false in Hc.
      eexists _, _; split; [reflexivity|]. split; [done | by eapply FromPage].
  - rewrite (scrape_raises _ _ _ Htry).
    eexists _, _; split; [reflexivity|].
    split; [apply app_nonempty | by eapply ErrorText].
Qed.

(** ** api.py: one iteration of the loop *)

Lemma process_item_not_http (u : Utils) (item : pyval) (url : string) :
  py_getitem item "url" = Ok (VStr url) → startswith url "http" = false →
  process_item u item = ([], Ok SkipNotHttp).
Proof.
  intros Hurl Hpre. unfold process_item, process_item_body.
  rewrite Hurl, bind_lift_ok; cbv beta iota. by rewrite Hpre.
Qed.

Lemma process_item_empty (u : Utils) (item : pyval) (url title : string) :
  py_getitem item "url" = Ok (VStr url) → startswith url "http" = true →
  u_scrape_article_content u url = Ok (scraped title "") →
  process_item u item = ([EvScrape url], Ok SkipEmptyContent).
Proof.
  intros Hurl Hpre Hs. unfold process_item, process_item_body.
  rewrite Hurl, bind_lift_ok; cbv beta iota. rewrite Hpre; simpl negb; cbv iota.
  rewrite bind_emit; cbv beta.
  rewrite Hs, bind_lift_ok; cbv beta.
  rewrite scraped_content, bind_lift_ok; cbv beta.
  reflexivity.
Qed.

(** A record with a title and a non-empty content, and nothing else,
    passes the empty-content test and then fails at [article['summary']]. *)
Lemma process_item_scraped (u : Utils) (item : pyval) (url title content : string) :
  py_getitem item "url" = Ok (VStr url) → startswith url "http" = true →
  u_scrape_article_content u url = Ok (scraped title content) → content ≠ "" →
  process_item u item =
    ([EvScrape url; EvLogError "Article processing failed: 'summary'"],
     Ok (SkipException (KeyError "summary"))).
Proof.
  intros Hurl Hpre Hs Hne. unfold process_item, process_item_body.
  rewrite Hurl, bind_lift_ok; cbv beta iota. rewrite Hpre; simpl negb; cbv iota.
  rewrite bind_emit; cbv beta.
  rewrite Hs, bind_lift_ok; cbv beta.
  rewrite scraped_content, bind_lift_ok; cbv beta.
  rewrite truthy_str by done. simpl negb; cbv iota.
  rewrite scraped_title, bind_lift_ok; cbv beta.
  rewrite scraped_no_summary, bind_lift_raise.
  reflexivity.
Qed.

Lemma process_item_no_url (u : Utils) (item : pyval) :
  (∀ url, py_getitem item "url" ≠ Ok (VStr url)) →
  ∃ e, process_item u item =
    ([EvLogError ("Article processing failed: " +:+ exn_str e)],
     Ok (SkipException e)).
Proof.
  intros Hno. unfold process_item, process_item_body.
  destruct (py_getitem item "url") as [[| | |url| |]|e];
    try (eexists; reflexivity).
  by destruct (Hno url).
Qed.

(** With the scraper of utils.py an iteration never ends in the
    empty-content [continue], and it never appends either. *)
Lemma process_item_utils (w : World) (item : pyval) :
  ∃ tr o, process_item (utils w) item = (tr, Ok o) ∧
    (o = SkipNotHttp ∨ ∃ e, o = SkipException e).
Proof.
  assert (Hskip : ∀ e' : exn, ∃ tr o,
    ([EvLogError ("Article processing failed: " +:+ exn_str e')],
     Ok (SkipException e')) = (tr, Ok o) ∧
    (o = SkipNotHttp ∨ ∃ e, o = SkipException e)).
  { intros e'. eexists _, _; split; [reflexivity | right; eauto]. }
  destruct (py_getitem item "url") as [v|e] eqn:Hurl.
  2: { destruct (process_item_no_url (utils w) item) as [e' ->]; [congruence|done]. }
  destruct v as [| | |url| |];
    try (destruct (process_item_no_url (utils w) item) as [e' ->];
         [congruence|done]).
  destruct (startswith url "http") eqn:Hpre.
  - destruct (scrape_article_content_total w url) as (title & content & Hs & Hne & _).
    erewrite process_item_scraped by (done || apply Hs).
    eexists _, _; split; [reflexivity | right; eauto].
  - erewrite process_item_not_http by done.
    eexists _, _; split; [reflexivity | by left].
Qed.

(** C9: the scraper never raises; its record always carries a non-empty
    content (text of the page, the placeholder, or the error text), so
    the handler's skip on empty content is never taken. *)
Theorem scrape_content_never_empty (w : World) (url : string) :
  (∃ title content,
     scrape_article_content w url = Ok (scraped title content) ∧
     py_getitem (scraped title content) "content" = Ok (VStr content) ∧
     content ≠ "" ∧ py_truthy (VStr content) = true ∧
     content_source w url content) ∧
  (∀ item, (process_item (utils w) item).2 ≠ Ok SkipEmptyContent).
Proof.
  split.
  - destruct (scrape_article_content_total w url) as (title & content & Hs & Hne & Hsrc).
    exists title, content. repeat split; try done. by apply truthy_str.
  - intros item. destruct (process_item_utils w item) as (tr & o & -> & [->|[e ->]]);
      simpl; congruence.
Qed.

(** ** utils.py: sentiment and topics *)

Lemma label_map_lookup (l : string) :
  label_map !! l =
    if decide (l = "LABEL_0") then Some "Negative"
    else if decide (l = "LABEL_1") then Some "Neutral"
    else if decide (l = "LABEL_2") then Some "Positive"
    else None.
Proof.
  unfold label_map. rewrite !lookup_insert, lookup_singleton.
  repeat case_decide; congruence.
Qed.

Lemma label_map_get_range (label : pyval) (s : string) :
  label_map_get label = Ok s → s ∈ sentiments.
Proof.
  unfold sentiments. destruct label as [| | |l| |]; simpl; intros [= <-];
    try set_solver.
  rewrite label_map_lookup. repeat case_decide; simpl; set_solver.
Qed.

Lemma label_map_get_other (l : string) :
  l ∉ raw_labels → label_map_get (VStr l) = Ok "Neutral".
Proof.
  unfold raw_labels. intros Hl. simpl. rewrite label_map_lookup.
  repeat case_decide; simpl; try done; set_solver.
Qed.

(** Whatever the classifier does, the function returns one of the three
    sentiments or raises its [RuntimeError]. *)
Lemma analyze_sentiment_cases (w : World) (text : string) :
  (∃ msg, analyze_sentiment w text = Raise (RuntimeError msg)) ∨
  (∃ s, analyze_sentiment w text = Ok s ∧ s ∈ sentiments).
Proof.
  unfold analyze_sentiment.
  destruct (sentiment_analyzer w (str_take 512 text)) as [out|e]; simpl; [|eauto].
  destruct (py_getitem0 out) as [result|e]; simpl; [|eauto].
  destruct (py_getitem result "label") as [label|e]; simpl; [|eauto].
  destruct (label_map_get label) as [s|e] eqn:Hl; simpl; [|eauto].
  right. exists s. split; [done|]. by eapply label_map_get_range.
Qed.

(** C6: the sentiment is one of Negative, Neutral and Positive, each of
    them the image of its raw label, and a raw label other than LABEL_0,
    LABEL_1 and LABEL_2 gives Neutral. *)
Theorem analyze_sentiment_range (w : World) (text : string)
    (r : gmap string pyval) (rest : list pyval) (l : string) :
  sentiment_analyzer w (str_take 512 text) = Ok (VList (VDict r :: rest)) →
  r !! "label" = Some (VStr l) →
  (∃ s, analyze_sentiment w text = Ok s ∧ s ∈ sentiments ∧
        (l ∉ raw_labels → s = "Neutral") ∧
        (l = "LABEL_0" → s = "Negative") ∧
        (l = "LABEL_1" → s = "Neutral") ∧
        (l = "LABEL_2" → s = "Positive")) ∧
  (∀ text' s', analyze_sentiment w text' = Ok s' → s' ∈ sentiments).
Proof.
  intros Hout Hlabel. split.
  - unfold analyze_sentiment. rewrite Hout. simpl. rewrite Hlabel. simpl.
    eexists; split; [reflexivity|]. rewrite label_map_lookup.
    split; [|split; [|split; [|split]]].
    + unfold sentiments. repeat case_decide; simpl; set_solver.
    + unfold raw_labels. intros Hl. repeat case_decide; simpl; try done; set_solver.
    + by intros ->.
    + by intros ->.
    + by intros ->.
  - intros text' s' Hs.
    destruct (analyze_sentiment_cases w text') as [[msg Hr]|(s & Hok & Hin)];
      congruence.
Qed.

(** C10: the sentiment depends on the first 512 characters only. *)
Theorem analyze_sentiment_prefix (w : World) (text1 text2 : string) :
  str_take 512 text1 = str_take 512 text2 →
  analyze_sentiment w text1 = analyze_sentiment w text2.
Proof. intros Heq. unfold analyze_sentiment. by rewrite Heq. Qed.

Lemma py_slice_to_nonneg {A} (n : nat) (l : list A) :
  py_slice_to (Z.of_nat n) l = take n l.
Proof.
  unfold py_slice_to. destruct (Z.ltb_spec (Z.of_nat n) 0); [lia|].
  by rewrite Nat2Z.id.
Qed.

(** C7: at most five topics, no two of them equal, each the text of an
    entity labelled ORG, PRODUCT, GPE or NORP. *)
Theorem extract_key_topics_spec (w : World) (text : string)
    (doc : list (string * string)) :
  nlp w text = Ok doc →
  ∃ topics, extract_key_topics w text 5 = Ok topics ∧
    (length topics ≤ 5)%nat ∧ NoDup topics ∧
    ∀ t, t ∈ topics → ∃ label, (t, label) ∈ doc ∧ label ∈ topic_labels.
Proof.
  intros Hdoc. unfold extract_key_topics. rewrite Hdoc. simpl.
  eexists; split; [reflexivity|].
  change 5 with (Z.of_nat 5). rewrite py_slice_to_nonneg.
  split; [|split].
  - rewrite length_take. lia.
  - eapply sublist_NoDup; [|apply sublist_take]. apply NoDup_elements.
  - intros t Ht. apply subseteq_take in Ht.
    apply elem_of_elements, elem_of_list_to_set, list_elem_of_fmap in Ht.
    destruct Ht as ([t' label] & -> & Hin).
    apply list_elem_of_filter in Hin as [Hlabel Hin]. by exists label.
Qed.

(** ** api.py: the loop and the handler *)

Lemma process_items_cons (u : Utils) (item : pyval) (items acc : list pyval)
    (tr : list event) (o : item_outcome) :
  process_item u item = (tr, Ok o) →
  process_items u (item :: items) acc =
    let rest := process_items u items
                  (match o with Appended a => acc ++ [a] | _ => acc end)%list in
    ((tr ++ rest.1)%list, rest.2).
Proof.
  intros H. simpl. unfold mbind at 1, M_bind. rewrite H. simpl. by destruct o.
Qed.

Lemma process_item_returns (u : Utils) (item : pyval) :
  ∃ tr o, process_item u item = (tr, Ok o).
Proof.
  unfold process_item, try_except_M.
  destruct (process_item_body u item) as [tr [o|e]]; simpl; eauto.
Qed.

(** The loop itself never raises. *)
Lemma process_items_returns (u : Utils) (items acc : list pyval) :
  ∃ l, (process_items u items acc).2 = Ok l.
Proof.
  revert acc. induction items as [|item items IH]; intros acc; [by eexists|].
  destruct (process_item_returns u item) as (tr & o & Ho).
  rewrite (process_items_cons _ _ _ _ _ _ Ho). simpl. apply IH.
Qed.

(** With utils.py as it is, the loop appends nothing. *)
Lemma process_items_utils (w : World) (items acc : list pyval) :
  (process_items (utils w) items acc).2 = Ok acc.
Proof.
  revert acc. induction items as [|item items IH]; intros acc; [done|].
  destruct (process_item_utils w item) as (tr & o & Ho & Hcase).
  rewrite (process_items_cons _ _ _ _ _ _ Ho). simpl.
  destruct Hcase as [->|[e ->]]; apply IH.
Qed.

Ltac trace_step :=
  first
    [ apply Forall_nil_2
    | apply bind_trace; [|intros ? _]
    | apply try_except_trace; [|intros ? _]
    | progress (unfold lift, emit, raise, mret, M_ret; simpl fst)
    | apply Forall_cons_2; [first [exact I | solve [auto]]|]
    | case_match ].

(** Invariants of the trace: the events of the loop are scrapes of
    http(s) URLs, sentiment and topic calls, and log lines. *)
Section Traces.
Variable P : event → Prop.
Hypothesis P_scrape : ∀ url, startswith url "http" = true → P (EvScrape url).
Hypothesis P_log : ∀ msg, P (EvLogError msg).
Hypothesis P_sentiment : ∀ v, P (EvSentiment v).
Hypothesis P_topics : ∀ v, P (EvTopics v).

Lemma process_item_trace (u : Utils) (item : pyval) :
  Forall P (process_item u item).1.
Proof using All.
  unfold process_item, process_item_body.
  apply try_except_trace; [|intros e _; repeat trace_step].
  apply bind_trace; [repeat trace_step|].
  intros [| | |url| |] _; try by repeat trace_step.
  destruct (startswith url "http") eqn:Hpre; simpl negb; cbv iota;
    [|by repeat trace_step].
  apply bind_trace; [|intros ? _; repeat trace_step].
  simpl. constructor; [by apply P_scrape | constructor].
Qed.

Lemma process_items_trace (u : Utils) (items acc : list pyval) :
  Forall P (process_items u items acc).1.
Proof using All.
  revert acc. induction items as [|item items IH]; intros acc; [by constructor|].
  destruct (process_item_returns u item) as (tr & o & Ho).
  rewrite (process_items_cons _ _ _ _ _ _ Ho). simpl.
  apply Forall_app; split; [|apply IH].
  pose proof (process_item_trace u item) as H. by rewrite Ho in H.
Qed.
End Traces.

Lemma process_items_guarded (u : Utils) (items acc : list pyval) :
  Forall scrape_guarded (process_items u items acc).1.
Proof. by apply process_items_trace. Qed.

Lemma process_items_no_tts (u : Utils) (items acc : list pyval) :
  Forall (λ ev, ∀ t, ev ≠ EvTTS t) (process_items u items acc).1.
Proof. by apply process_items_trace. Qed.

Lemma analyze_guarded (u : Utils) (company : string) :
  Forall scrape_guarded (analyze_company_news u company).1.
Proof.
  unfold analyze_company_news, analyze_body.
  apply try_except_trace; [|intros e _; repeat trace_step].
  apply bind_trace; [repeat trace_step|]. intros [] _.
  apply bind_trace; [repeat trace_step|]. intros news_items _.
  apply bind_trace; [repeat trace_step|]. intros items _.
  apply bind_trace; [apply process_items_guarded|]. intros l _.
  repeat trace_step.
Qed.

(** A request that fetches and iterates, and whose loop leaves
    [processed_articles] empty: the 404 raised inside the [try] is caught
    by the handler's own [except Exception] and answered as a 500; the
    narrator is not called. *)
Lemma analyze_zero_articles (u : Utils) (company : string)
    (news_items : pyval) (items : list pyval) :
  u_fetch_news_articles u [VStr company] = Ok news_items →
  py_iter news_items = Ok items →
  (process_items u items []).2 = Ok [] →
  analyze_company_news u company =
    ((EvFetch [VStr company] :: (process_items u items []).1 ++
      [EvLogError "Critical error: 404: No articles could be processed"])%list,
     Raise (HTTPException 500 "Internal server error")) ∧
  ∀ t, EvTTS t ∉ (analyze_company_news u company).1.
Proof.
  intros Hfetch Hiter Hloop.
  assert (Heq : analyze_company_news u company =
    ((EvFetch [VStr company] :: (process_items u items []).1 ++
      [EvLogError "Critical error: 404: No articles could be processed"])%list,
     Raise (HTTPException 500 "Internal server error"))).
  { unfold analyze_company_news, analyze_body.
    rewrite bind_emit; cbv beta. rewrite Hfetch, bind_lift_ok; cbv beta.
    rewrite Hiter, bind_lift_ok; cbv beta.
    destruct (process_items u items []) as [tr r]; simpl in Hloop; subst r.
    unfold try_except_M, mbind, M_bind, raise, emit.
    cbn [fst snd negb py_truthy length Nat.eqb]. by rewrite app_nil_r. }
  split; [done|]. rewrite Heq. simpl. intros t Hin.
  apply elem_of_cons in Hin as [|Hin]; [done|].
  apply elem_of_app in Hin as [Hin|Hin].
  - pose proof (process_items_no_tts u items []) as Hno.
    rewrite Forall_forall in Hno. by apply (Hno _ Hin t).
  - by apply list_elem_of_singleton in Hin.
Qed.

(** Whatever goes wrong, the client sees the generic 500. *)
Lemma analyze_raises_500 (u : Utils) (company : string) (e : exn) :
  (analyze_company_news u company).2 = Raise e →
  e = HTTPException 500 "Internal server error".
Proof.
  unfold analyze_company_news, try_except_M.
  destruct (analyze_body u company) as [tr [v|e']]; simpl; congruence.
Qed.

(** ** The success response *)

Lemma bind_ok_inv {A B} (m : M A) (k : A → M B) (b : B) :
  (m ≫= k).2 = Ok b → ∃ a, m.2 = Ok a ∧ (k a).2 = Ok b.
Proof.
  unfold mbind, M_bind. destruct m as [tr [a|e]]; simpl; [eauto | done].
Qed.

Tactic Notation "bind_inv" hyp(H) "as" simple_intropattern(a) :=
  let Ha := fresh "Hv" in
  apply bind_ok_inv in H as (a & Ha & H); cbv beta in H; clear Ha.

Lemma process_item_appended (u : Utils) (item a : pyval) :
  (process_item u item).2 = Ok (Appended a) → processed_article a.
Proof.
  unfold process_item, try_except_M.
  destruct (process_item_body u item) as [tr [o|e]] eqn:Hbody; simpl; [|done].
  intros [= ->]. assert (H : (process_item_body u item).2 = Ok (Appended a))
    by by rewrite Hbody.
  clear Hbody. unfold process_item_body in H.
  bind_inv H as url. destruct url as [| | |url| |]; try done.
  destruct (startswith url "http"); cbn [negb] in H; [|done].
  bind_inv H as []. bind_inv H as article. bind_inv H as content.
  destruct (py_truthy content); cbn [negb] in H; [|done].
  bind_inv H as title. bind_inv H as summary. bind_inv H as content1.
  bind_inv H as []. bind_inv H as sentiment. bind_inv H as content2.
  bind_inv H as []. bind_inv H as topics. injection H as <-.
  by exists title, summary, sentiment, topics.
Qed.

Lemma process_items_articles (u : Utils) (items acc l : list pyval) :
  Forall processed_article acc →
  (process_items u items acc).2 = Ok l → Forall processed_article l.
Proof.
  revert acc. induction items as [|item items IH]; intros acc Hacc.
  - simpl. by intros [= <-].
  - destruct (process_item_returns u item) as (tr & o & Ho).
    rewrite (process_items_cons _ _ _ _ _ _ Ho). simpl. apply IH.
    destruct o; try done. apply Forall_app; split; [done|].
    constructor; [|done]. apply (process_item_appended u item). by rewrite Ho.
Qed.

Lemma str_items_strings (topics : list string) :
  str_items (VList (VStr <$> topics)) = Ok topics.
Proof.
  change (as_strings (VStr <$> topics) = Ok topics).
  induction topics as [|t topics IH]; [done|].
  rewrite fmap_cons. cbn [as_strings]. by rewrite IH.
Qed.

Lemma show_article_ok (idx : nat) (a : pyval) :
  processed_article a → ∃ e, show_article idx a = Ok e.
Proof.
  intros (title & summary & sentiment & topics & ->).
  unfold show_article.
  change (py_getitem _ "title") with (Ok (A:=pyval) title).
  change (py_getitem _ "summary") with (Ok (A:=pyval) summary).
  change (py_getitem _ "sentiment") with (Ok (A:=pyval) (VStr sentiment)).
  change (py_getitem _ "topics") with (Ok (A:=pyval) (VList (VStr <$> topics))).
  simpl. rewrite str_items_strings. simpl. eauto.
Qed.

Lemma show_articles_ok (idx : nat) (l : list pyval) :
  Forall processed_article l → ∃ es, show_articles idx l = Ok es.
Proof.
  intros Hl. revert idx. induction Hl as [|a l Ha _ IH]; intros idx; [by eexists|].
  simpl. destruct (show_article_ok idx a Ha) as [e ->].
  destruct (IH (S idx)) as [es ->]. simpl. eauto.
Qed.

(** What a successful request returns. *)
Lemma analyze_success (u : Utils) (company : string) (data : pyval) :
  (analyze_company_news u company).2 = Ok data →
  ∃ articles tts_path,
    data = VDict {[ "company" := VStr company;
                    "articles" := VList articles;
                    "tts_path" := VStr tts_path ]} ∧
    articles ≠ [] ∧ Forall processed_article articles.
Proof.
  unfold analyze_company_news, try_except_M.
  destruct (analyze_body u company) as [tr [v|e]] eqn:Hbody; simpl; [|done].
  intros [= ->]. assert (H : (analyze_body u company).2 = Ok data)
    by by rewrite Hbody.
  clear Hbody. unfold analyze_body in H.
  bind_inv H as []. bind_inv H as news_items. bind_inv H as items.
  apply bind_ok_inv in H as (articles & Harticles & H); cbv beta in H.
  destruct articles as [|a l]; cbn [py_truthy length Nat.eqb negb] in H; [done|].
  bind_inv H as []. bind_inv H as tts_path. bind_inv H as [].
  injection H as <-.
  eexists _, _; split; [reflexivity|]. split; [done|].
  by eapply process_items_articles.
Qed.

(** ** The handler, end to end *)

(** C1: a request whose fetch returns zero references.  The handler
    raises its 404 inside the [try] whose [except Exception] turns every
    exception into the generic 500, so the client never sees a 404; the
    narrator is not called and no success is returned. *)
Theorem zero_references_answer_500 :
  fetch_news_articles (Scenario.world []) [VStr "Tesla"; VStr "key"] = Ok (VList []) ∧
  analyze_company_news (utils_with_key (Scenario.world []) "key") "Tesla" =
    ([EvFetch [VStr "Tesla"];
      EvLogError "Critical error: 404: No articles could be processed"],
     Raise (HTTPException 500 "Internal server error")) ∧
  (∀ u company detail,
     (analyze_company_news u company).2 ≠ Raise (HTTPException 404 detail)).
Proof.
  split; [reflexivity|]. split; [reflexivity|].
  intros u company detail H. by apply analyze_raises_500 in H.
Qed.

(** C3: the Tesla scenario, three references of which one is not http,
    one scrapes to an empty content and one scrapes well.  The record of
    the scraper has no ['summary'], the third iteration ends in a
    [KeyError], no article is appended and the request ends in the 500. *)
Theorem tesla_scenario_no_article :
  process_items Scenario.tesla_utils Scenario.tesla_refs [] =
    ([EvScrape "http://blank.example/tesla";
      EvScrape "https://news.example/tesla";
      EvLogError "Article processing failed: 'summary'"],
     Ok []) ∧
  analyze_company_news Scenario.tesla_utils "Tesla" =
    ([EvFetch [VStr "Tesla"];
      EvScrape "http://blank.example/tesla";
      EvScrape "https://news.example/tesla";
      EvLogError "Article processing failed: 'summary'";
      EvLogError "Critical error: 404: No articles could be processed"],
     Raise (HTTPException 500 "Internal server error")) ∧
  (∀ w items, (process_items (utils w) items []).2 = Ok []).
Proof.
  split; [reflexivity|]. split; [reflexivity|].
  intros w items. apply process_items_utils.
Qed.

(** With a scraper that returns a ['summary'] the same three references
    give exactly one article: the missing key is all that stands between
    the handler and the scenario. *)
Example tesla_scenario_with_summary :
  (process_items Scenario.tesla_utils_summary Scenario.tesla_refs []).2 =
    Ok [Scenario.tesla_article] ∧
  (analyze_company_news Scenario.tesla_utils_summary "Tesla").2 =
    Ok (VDict {[ "company" := VStr "Tesla";
                 "articles" := VList [Scenario.tesla_article];
                 "tts_path" := VStr "/tmp/tmpk3v9.wav" ]}).
Proof. split; vm_compute; reflexivity. Qed.

(** C4: when the body of the scraper raises, the record is titled
    "Error" with the error text as content; the content is not empty, the
    empty-content test lets the record through, and the iteration then
    fails at [article['summary']]: the record is not appended. *)
Theorem scrape_error_passes_filter (w : World) (item : pyval) (url : string) (e : exn) :
  py_getitem item "url" = Ok (VStr url) →
  startswith url "http" = true →
  scrape_article_content_try w url = Raise e →
  scrape_article_content w url =
    Ok (scraped "Error" ("Error scraping article: " +:+ exn_str e)) ∧
  py_truthy (VStr ("Error scraping article: " +:+ exn_str e)) = true ∧
  process_item (utils w) item =
    ([EvScrape url; EvLogError "Article processing failed: 'summary'"],
     Ok (SkipException (KeyError "summary"))).
Proof.
  intros Hurl Hpre Htry. split; [by apply scrape_raises|]. split; [done|].
  eapply process_item_scraped; [done..| |apply app_nonempty].
  by apply scrape_raises.
Qed.

Lemma scrape_error_passes_filter_witness :
  process_item (utils (Scenario.world [])) Scenario.down_ref =
    ([EvScrape "https://down.example/tesla";
      EvLogError "Article processing failed: 'summary'"],
     Ok (SkipException (KeyError "summary"))).
Proof.
  apply (scrape_error_passes_filter (Scenario.world []) Scenario.down_ref
           "https://down.example/tesla" (RequestException "Read timed out"));
    reflexivity.
Defined.

(** C5: the success response carries the audio path under ['tts_path'];
    the frontend reads ['tts_url'], which the response does not have, and
    [main] ends in a [KeyError] before the second GET. *)
Theorem frontend_audio_lookup (u : Utils) (company api_base : string) (data : pyval)
    (audio_get : string → pyval → result string) :
  (analyze_company_news u company).2 = Ok data →
  (∃ path, py_getitem data "tts_path" = Ok (VStr path)) ∧
  py_getitem data "tts_url" = Raise (KeyError "tts_url") ∧
  main api_base (Ok (http_reply (Ok data))) audio_get = Raise (KeyError "tts_url").
Proof.
  intros H. apply analyze_success in H as (articles & tts_path & -> & _ & Harts).
  split; [by exists tts_path|]. split; [reflexivity|].
  unfold main. cbn [mbind result_bind].
  change (api_raise_for_status (http_reply (Ok _))) with (Ok ()).
  cbn [mbind result_bind http_reply api_json]. unfold show_results.
  change (py_getitem _ "company") with (Ok (VStr company)).
  change (py_getitem _ "articles") with (Ok (VList articles)).
  change (py_getitem _ "tts_url") with (Raise (A:=pyval) (KeyError "tts_url")).
  cbn [mbind result_bind py_iter].
  destruct (show_articles_ok 0 articles Harts) as [es ->]. reflexivity.
Qed.

Lemma frontend_audio_lookup_witness :
  (∃ path, py_getitem Scenario.summary_response "tts_path" = Ok (VStr path)) ∧
  py_getitem Scenario.summary_response "tts_url" = Raise (KeyError "tts_url") ∧
  main "http://localhost:8000" (Ok (http_reply (Ok Scenario.summary_response)))
    Scenario.audio_server = Raise (KeyError "tts_url").
Proof.
  apply (frontend_audio_lookup Scenario.summary_utils "Tesla").
  vm_compute. reflexivity.
Defined.

(** C8: a reference whose URL does not start with "http" is skipped
    before the scraper: its iteration makes no call, and no scrape of its
    URL occurs anywhere in the request. *)
Theorem scraper_only_http (u : Utils) (company : string) (item : pyval) (url : string) :
  py_getitem item "url" = Ok (VStr url) →
  startswith url "http" = false →
  process_item u item = ([], Ok SkipNotHttp) ∧
  (∀ items acc, EvScrape url ∉ (process_items u items acc).1) ∧
  EvScrape url ∉ (analyze_company_news u company).1.
Proof.
  intros Hurl Hpre. split; [by eapply process_item_not_http|].
  split.
  - intros items acc Hin. pose proof (process_items_guarded u items acc) as H.
    rewrite Forall_forall in H. apply H in Hin. simpl in Hin. congruence.
  - intros Hin. pose proof (analyze_guarded u company) as H.
    rewrite Forall_forall in H. apply H in Hin. simpl in Hin. congruence.
Qed.

Lemma scraper_only_http_witness :
  (analyze_company_news Scenario.tesla_utils "Tesla").1 =
    [EvFetch [VStr "Tesla"];
     EvScrape "http://blank.example/tesla";
     EvScrape "https://news.example/tesla";
     EvLogError "Article processing failed: 'summary'";
     EvLogError "Critical error: 404: No articles could be processed"] ∧
  process_item Scenario.tesla_utils Scenario.ftp_ref = ([], Ok SkipNotHttp) ∧
  (∀ items acc,
     EvScrape "ftp://files.example/tesla.txt"
       ∉ (process_items Scenario.tesla_utils items acc).1) ∧
  EvScrape "ftp://files.example/tesla.txt"
    ∉ (analyze_company_news Scenario.tesla_utils "Tesla").1.
Proof.
  split; [reflexivity|].
  apply (scraper_only_http Scenario.tesla_utils "Tesla" Scenario.ftp_ref
           "ftp://files.example/tesla.txt"); reflexivity.
Defined.

(** ** Witnesses for the utilities *)

Lemma analyze_sentiment_range_witness :
  (∃ s, analyze_sentiment (Scenario.world []) "odd" = Ok s ∧ s ∈ sentiments ∧
        ("LABEL_7" ∉ raw_labels → s = "Neutral") ∧
        ("LABEL_7" = "LABEL_0" → s = "Negative") ∧
        ("LABEL_7" = "LABEL_1" → s = "Neutral") ∧
        ("LABEL_7" = "LABEL_2" → s = "Positive")) ∧
  (∀ text' s', analyze_sentiment (Scenario.world []) text' = Ok s' → s' ∈ sentiments).
Proof.
  apply (analyze_sentiment_range (Scenario.world []) "odd"
           {[ "label" := VStr "LABEL_7" ]} [] "LABEL_7"); reflexivity.
Defined.

Lemma analyze_sentiment_prefix_witness :
  (String.eqb (Scenario.accent_text "x") (Scenario.accent_text "y") = false ∧
   analyze_sentiment (Scenario.world []) (Scenario.accent_text "x") =
   analyze_sentiment (Scenario.world []) (Scenario.accent_text "y")) ∧
  (String.eqb (Scenario.long_text "x") (Scenario.long_text "y") = false ∧
   analyze_sentiment (Scenario.world []) (Scenario.long_text "x") =
   analyze_sentiment (Scenario.world []) (Scenario.long_text "y")).
Proof.
  split; (split; [vm_compute; reflexivity|]);
    apply analyze_sentiment_prefix; vm_compute; reflexivity.
Defined.

Lemma extract_key_topics_spec_witness :
  ∃ topics, extract_key_topics (Scenario.world []) "Tesla shares rose." 5 = Ok topics ∧
    (length topics ≤ 5)%nat ∧ NoDup topics ∧
    ∀ t, t ∈ topics → ∃ label,
      (t, label) ∈ [("Tesla", "ORG"); ("Elon Musk", "PERSON"); ("US", "GPE");
                    ("Tesla", "ORG"); ("Model 3", "PRODUCT"); ("Europeans", "NORP");
                    ("BYD", "ORG"); ("China", "GPE"); ("Ford", "ORG");
                    ("Monday", "DATE")] ∧ label ∈ topic_labels.
Proof.
  apply (extract_key_topics_spec (Scenario.world []) "Tesla shares rose.").
  reflexivity.
Defined.

(** * Further properties *)

(** ** fetch_news_articles *)

(** The fetcher takes two or three positional arguments: any other
    number is a [TypeError], whatever the news API would answer. *)
Theorem fetch_wrong_arity (args : list pyval) :
  (length args < 2 ∨ 3 < length args)%nat →
  ∃ msg, ∀ w, fetch_news_articles w args = Raise (TypeError msg).
Proof.
  intros Hlen. destruct args as [|a [|b [|c [|d rest]]]]; simpl in Hlen;
    try lia; eexists; intros w; reflexivity.
Qed.

Lemma fetch_wrong_arity_witness :
  ∃ msg, ∀ w, fetch_news_articles w [] = Raise (TypeError msg).
Proof. apply (fetch_wrong_arity []). left. simpl. lia. Defined.

(** With the key supplied the fetcher queries the news API with the
    quoted company name, and returns the ['articles'] of the answer, or
    the empty list when the answer has none (an error payload, say);
    without a third argument the page size is 10. *)
Theorem fetch_returns_articles (w : World) (company : string)
    (api_key max_results : pyval) (d : gmap string pyval) :
  newsapi w news_api_url (news_query company api_key max_results) = Ok (VDict d) →
  fetch_news_articles w [VStr company; api_key; max_results] =
    Ok (default (VList []) (d !! "articles")) ∧
  (max_results = VInt 10 →
   fetch_news_articles w [VStr company; api_key] =
     Ok (default (VList []) (d !! "articles"))).
Proof.
  intros Hdata. split; [|intros ->].
  - change (fetch_news_articles w [VStr company; api_key; max_results])
      with (newsapi w news_api_url (news_query company api_key max_results)
            ≫= λ data, py_get data "articles" (VList [])).
    by rewrite Hdata.
  - change (fetch_news_articles w [VStr company; api_key])
      with (newsapi w news_api_url (news_query company api_key (VInt 10))
            ≫= λ data, py_get data "articles" (VList [])).
    by rewrite Hdata.
Qed.

Lemma fetch_returns_articles_witness :
  let d : gmap string pyval :=
    {[ "status" := VStr "error"; "code" := VStr "apiKeyInvalid" ]} in
  d !! "articles" = None ∧
  (fetch_news_articles Scenario.error_world [VStr "Tesla"; VStr "key"; VInt 10] =
     Ok (default (VList []) (d !! "articles")) ∧
   (VInt 10 = VInt 10 →
    fetch_news_articles Scenario.error_world [VStr "Tesla"; VStr "key"] =
      Ok (default (VList []) (d !! "articles")))).
Proof.
  split; [reflexivity|].
  apply (fetch_returns_articles Scenario.error_world "Tesla" (VStr "key") (VInt 10)).
  reflexivity.
Defined.

(** Nothing is caught in the fetcher: when the call of the news API
    raises, that very exception leaves the function, and an answer that
    is not an object raises [AttributeError] at [data.get]. *)
Theorem fetch_failure_surfaces (w : World) (company : string) (api_key : pyval)
    (r : result pyval) :
  newsapi w news_api_url (news_query company api_key (VInt 10)) = r →
  match r with
  | Raise e => fetch_news_articles w [VStr company; api_key] = Raise e
  | Ok (VDict d) =>
      fetch_news_articles w [VStr company; api_key] =
        Ok (default (VList []) (d !! "articles"))
  | Ok _ =>
      fetch_news_articles w [VStr company; api_key] =
        Raise (AttributeError "object has no attribute 'get'")
  end.
Proof.
  intros Hr.
  change (fetch_news_articles w [VStr company; api_key])
    with (newsapi w news_api_url (news_query company api_key (VInt 10))
          ≫= λ data, py_get data "articles" (VList [])).
  rewrite Hr. by destruct r as [[| | | | |d]|e].
Qed.

Lemma fetch_failure_surfaces_witness :
  fetch_news_articles Scenario.offline_world [VStr "Tesla"; VStr "key"] =
    Raise (RequestException "Connection refused").
Proof.
  apply (fetch_failure_surfaces Scenario.offline_world "Tesla" (VStr "key")
           (Raise (RequestException "Connection refused"))).
  reflexivity.
Defined.

(** ** scrape_article_content *)

Lemma extract_content_eq (soup : page) :
  extract_content soup =
    if String.eqb (description_of soup) "" ||
       (py_len (description_of soup) <? 100)%nat
    then fallback_text soup else description_of soup.
Proof.
  unfold extract_content, description_of, fallback_text.
  destruct (tag_content (pg_meta_description soup));
    destruct (tag_content (pg_og_description soup));
    destruct (pg_article_paragraphs soup); reflexivity.
Qed.

Lemma raise_for_status_ok (response : http_response) :
  status_code response < 400 ∨ 600 ≤ status_code response →
  raise_for_status response = Ok ().
Proof.
  intros H. unfold raise_for_status.
  destruct (Z.leb_spec 400 (status_code response));
    destruct (Z.ltb_spec (status_code response) 600); simpl; try done; lia.
Qed.

Lemma scrape_page (w : World) (url : string) (response : http_response) (soup : page) :
  requests_get w url = Ok response →
  status_code response < 400 ∨ 600 ≤ status_code response →
  html_parser w (text response) = Ok soup →
  scrape_article_content w url =
    Ok (scraped (title_of soup)
          (if String.eqb (extract_content soup) ""
           then "No content available." else extract_content soup)).
Proof.
  intros Hget Hstatus Hparse.
  unfold scrape_article_content, scrape_article_content_try.
  rewrite Hget. simpl. rewrite (raise_for_status_ok _ Hstatus). simpl.
  rewrite Hparse. reflexivity.
Qed.

Lemma py_len_nonempty (s : string) (n : nat) :
  (S n ≤ py_len s)%nat → String.eqb s "" = false.
Proof. destruct s; [unfold py_len; simpl; lia | done]. Qed.

(** A description of at least 100 characters (code points, after
    [strip]) is the content as it is, stripped: the paragraphs of the
    page are not read. *)
Theorem long_description_kept (w : World) (url : string)
    (response : http_response) (soup : page) :
  requests_get w url = Ok response →
  status_code response < 400 ∨ 600 ≤ status_code response →
  html_parser w (text response) = Ok soup →
  (100 ≤ py_len (description_of soup))%nat →
  scrape_article_content w url =
    Ok (scraped (title_of soup) (description_of soup)).
Proof.
  intros Hget Hstatus Hparse Hlen.
  rewrite (scrape_page w url response soup) by done.
  rewrite extract_content_eq.
  rewrite (py_len_nonempty _ 99 Hlen).
  destruct (Nat.ltb_spec (py_len (description_of soup)) 100); [lia|].
  simpl. by rewrite (py_len_nonempty _ 99 Hlen).
Qed.

Lemma long_description_kept_witness :
  scrape_article_content (Scenario.site Scenario.long_accent_page 200)
    "https://news.example/a" =
    Ok (scraped (title_of Scenario.long_accent_page)
          (description_of Scenario.long_accent_page)).
Proof.
  apply (long_description_kept (Scenario.site Scenario.long_accent_page 200)
           "https://news.example/a" {| status_code := 200; text := "<html>" |}
           Scenario.long_accent_page).
  - reflexivity.
  - left. reflexivity.
  - reflexivity.
  - vm_compute. repeat constructor.
Defined.

(** The description of [long_accent_page] is 100 characters in 200
    bytes, freed of its no-break space; that of [accent_page] is 60
    characters in 120 bytes and is dropped for the paragraphs. *)
Example accent_descriptions :
  description_of Scenario.long_accent_page = Scenario.accents 100 ∧
  scrape_article_content (Scenario.site Scenario.accent_page 200)
    "https://news.example/c" = Ok (scraped "Tesla" "Le texte.").
Proof. split; vm_compute; reflexivity. Qed.

(** A description shorter than 100 characters is thrown away: the
    content is the text of the paragraphs (those of the first article
    element, if there is one), and the placeholder when they are empty,
    even though a description was there. *)
Theorem short_description_dropped (w : World) (url : string)
    (response : http_response) (soup : page) :
  requests_get w url = Ok response →
  status_code response < 400 ∨ 600 ≤ status_code response →
  html_parser w (text response) = Ok soup →
  (py_len (description_of soup) < 100)%nat →
  scrape_article_content w url =
    Ok (scraped (title_of soup)
          (if String.eqb (fallback_text soup) ""
           then "No content available." else fallback_text soup)).
Proof.
  intros Hget Hstatus Hparse Hlen.
  rewrite (scrape_page w url response soup) by done.
  rewrite extract_content_eq.
  destruct (Nat.ltb_spec (py_len (description_of soup)) 100); [|lia].
  by rewrite orb_true_r.
Qed.

Lemma short_description_dropped_witness :
  description_of Scenario.short_page = "Tesla shares rose." ∧
  scrape_article_content (Scenario.site Scenario.short_page 200) "https://news.example/b" =
    Ok (scraped (title_of Scenario.short_page)
          (if String.eqb (fallback_text Scenario.short_page) ""
           then "No content available." else fallback_text Scenario.short_page)) ∧
  fallback_text Scenario.short_page = "".
Proof.
  split; [reflexivity|]. split; [|reflexivity].
  apply (short_description_dropped (Scenario.site Scenario.short_page 200)
           "https://news.example/b" {| status_code := 200; text := "<html>" |}
           Scenario.short_page).
  - reflexivity.
  - left. reflexivity.
  - reflexivity.
  - vm_compute. repeat constructor.
Defined.

(** The Open Graph description is read only when the meta description is
    missing or empty: next to a non-empty meta description, however
    short, it has no influence on the content. *)
Theorem og_description_shadowed (soup : page) (og : option (option string)) (c : string) :
  tag_content (pg_meta_description soup) = Some c →
  extract_content (with_og soup og) = extract_content soup.
Proof.
  intros Hmeta. unfold extract_content, with_og. simpl. by rewrite Hmeta.
Qed.

Lemma og_description_shadowed_witness :
  extract_content (with_og Scenario.short_page None) =
  extract_content Scenario.short_page.
Proof.
  apply (og_description_shadowed Scenario.short_page None "Tesla shares rose.").
  reflexivity.
Defined.

(** A reply with a 4xx or 5xx status gives the "Error" record, whatever
    the body of the reply holds. *)
Theorem http_error_status (w : World) (url : string) (response : http_response) :
  requests_get w url = Ok response →
  400 ≤ status_code response < 600 →
  ∃ msg, scrape_article_content w url =
           Ok (scraped "Error" ("Error scraping article: " +:+ msg)).
Proof.
  intros Hget Hstatus.
  unfold scrape_article_content, scrape_article_content_try, raise_for_status.
  rewrite Hget. simpl.
  destruct (Z.leb_spec 400 (status_code response)); [|lia].
  destruct (Z.ltb_spec (status_code response) 600); [|lia].
  simpl. eexists. reflexivity.
Qed.

Lemma http_error_status_witness :
  ∃ msg, scrape_article_content (Scenario.site Scenario.long_page 404)
           "https://news.example/gone" =
           Ok (scraped "Error" ("Error scraping article: " +:+ msg)).
Proof.
  apply (http_error_status (Scenario.site Scenario.long_page 404)
           "https://news.example/gone" {| status_code := 404; text := "<html>" |}).
  - reflexivity.
  - simpl. lia.
Defined.

(** ** analyze_sentiment, extract_key_topics, generate_hindi_tts *)

(** Whatever fails inside (the classifier, an empty output, a result
    without ['label']), the caller sees a [RuntimeError] whose message
    is "Sentiment analysis failed: " and the text of the cause. *)
Theorem analyze_sentiment_failure (w : World) (text : string) (e : exn) :
  analyze_sentiment w text = Raise e →
  ∃ cause, e = RuntimeError ("Sentiment analysis failed: " +:+ exn_str cause) ∧
    (sentiment_analyzer w (str_take 512 text) = Raise cause ∨
     ∃ out, sentiment_analyzer w (str_take 512 text) = Ok out ∧
       (py_getitem0 out = Raise cause ∨
        ∃ result, py_getitem0 out = Ok result ∧
          (py_getitem result "label" = Raise cause ∨
           ∃ label, py_getitem result "label" = Ok label ∧
                    label_map_get label = Raise cause))).
Proof.
  unfold analyze_sentiment.
  destruct (sentiment_analyzer w (str_take 512 text)) as [out|c]; simpl;
    [|intros [= <-]; eauto].
  destruct (py_getitem0 out) as [result|c] eqn:H0; simpl;
    [|intros [= <-]; eauto 10].
  destruct (py_getitem result "label") as [label|c] eqn:Hl; simpl;
    [|intros [= <-]; eauto 10].
  destruct (label_map_get label) as [s|c] eqn:Hm; simpl; [done|].
  intros [= <-]. eauto 15.
Qed.

Lemma analyze_sentiment_failure_witness :
  ∃ cause,
    RuntimeError "Sentiment analysis failed: list index out of range" =
      RuntimeError ("Sentiment analysis failed: " +:+ exn_str cause) ∧
    (sentiment_analyzer Scenario.error_world (str_take 512 "Tesla") = Raise cause ∨
     ∃ out, sentiment_analyzer Scenario.error_world (str_take 512 "Tesla") = Ok out ∧
       (py_getitem0 out = Raise cause ∨
        ∃ result, py_getitem0 out = Ok result ∧
          (py_getitem result "label" = Raise cause ∨
           ∃ label, py_getitem result "label" = Ok label ∧
                    label_map_get label = Raise cause))).
Proof.
  apply (analyze_sentiment_failure Scenario.error_world "Tesla"). reflexivity.
Defined.

Lemma distinct_topics_elem (doc : list (string * string)) (t : string) :
  t ∈ distinct_topics doc ↔ ∃ label, (t, label) ∈ doc ∧ label ∈ topic_labels.
Proof.
  unfold distinct_topics.
  rewrite elem_of_elements, elem_of_list_to_set, list_elem_of_fmap. split.
  - intros ([t' label] & -> & Hin). apply list_elem_of_filter in Hin as [? ?].
    by exists label.
  - intros (label & Hin & Hlabel). exists (t, label). split; [done|].
    by apply list_elem_of_filter.
Qed.

(** For any [max_topics] the topics are a prefix of the deduplicated
    entity texts: [max_topics] of them when it is not negative (all of
    them when there are fewer), and all but the last [-max_topics] when
    it is negative. *)
Theorem extract_key_topics_slice (w : World) (text : string)
    (doc : list (string * string)) (max_topics : Z) :
  nlp w text = Ok doc →
  ∃ topics, extract_key_topics w text max_topics = Ok topics ∧
    topics `prefix_of` distinct_topics doc ∧
    Z.of_nat (length topics) =
      if max_topics <? 0
      then Z.max 0 (Z.of_nat (length (distinct_topics doc)) + max_topics)
      else Z.min max_topics (Z.of_nat (length (distinct_topics doc))).
Proof.
  intros Hdoc. unfold extract_key_topics. rewrite Hdoc. simpl.
  eexists; split; [reflexivity|]. fold (distinct_topics doc).
  unfold py_slice_to. split.
  - destruct (max_topics <? 0); apply prefix_take.
  - destruct (Z.ltb_spec max_topics 0); rewrite length_take; lia.
Qed.

Lemma extract_key_topics_slice_witness :
  ∃ topics, extract_key_topics (Scenario.world []) "Tesla" (-2) = Ok topics ∧
    topics `prefix_of`
      distinct_topics [("Tesla", "ORG"); ("Elon Musk", "PERSON"); ("US", "GPE");
                       ("Tesla", "ORG"); ("Model 3", "PRODUCT"); ("Europeans", "NORP");
                       ("BYD", "ORG"); ("China", "GPE"); ("Ford", "ORG");
                       ("Monday", "DATE")] ∧
    Z.of_nat (length topics) =
      if -2 <? 0
      then Z.max 0 (Z.of_nat (length (distinct_topics
                      [("Tesla", "ORG"); ("Elon Musk", "PERSON"); ("US", "GPE");
                       ("Tesla", "ORG"); ("Model 3", "PRODUCT"); ("Europeans", "NORP");
                       ("BYD", "ORG"); ("China", "GPE"); ("Ford", "ORG");
                       ("Monday", "DATE")])) + -2)
      else Z.min (-2) (Z.of_nat (length (distinct_topics
                      [("Tesla", "ORG"); ("Elon Musk", "PERSON"); ("US", "GPE");
                       ("Tesla", "ORG"); ("Model 3", "PRODUCT"); ("Europeans", "NORP");
                       ("BYD", "ORG"); ("China", "GPE"); ("Ford", "ORG");
                       ("Monday", "DATE")]))).
Proof.
  apply (extract_key_topics_slice (Scenario.world []) "Tesla"). reflexivity.
Defined.

(** When the text has no more distinct qualifying entities than
    [max_topics], none is lost: every entity labelled ORG, PRODUCT, GPE
    or NORP is among the topics. *)
Theorem extract_key_topics_complete (w : World) (text : string)
    (doc : list (string * string)) (max_topics : Z) :
  nlp w text = Ok doc →
  Z.of_nat (length (distinct_topics doc)) ≤ max_topics →
  ∃ topics, extract_key_topics w text max_topics = Ok topics ∧
    ∀ t label, (t, label) ∈ doc → label ∈ topic_labels → t ∈ topics.
Proof.
  intros Hdoc Hlen. unfold extract_key_topics. rewrite Hdoc. simpl.
  eexists; split; [reflexivity|]. fold (distinct_topics doc).
  unfold py_slice_to. destruct (Z.ltb_spec max_topics 0); [lia|].
  rewrite take_ge by lia.
  intros t label Hin Hlabel. apply distinct_topics_elem. eauto.
Qed.

Lemma extract_key_topics_complete_witness :
  ∃ topics, extract_key_topics Scenario.error_world "Tesla" 5 = Ok topics ∧
    ∀ t label,
      (t, label) ∈ [("Tesla", "ORG"); ("US", "GPE"); ("Tesla", "ORG"); ("Monday", "DATE")] →
      label ∈ topic_labels → t ∈ topics.
Proof.
  apply (extract_key_topics_complete Scenario.error_world "Tesla").
  - reflexivity.
  - vm_compute. discriminate.
Defined.

(** The narrator synthesises the translation, returns the path of the
    file exactly when both steps succeed, and turns any failure of
    either into a [RuntimeError] "TTS generation failed: ...". *)
Theorem generate_hindi_tts_spec (w : World) (text : string) :
  (∀ path, generate_hindi_tts w text = Ok path ↔
     ∃ translated, translate w text = Ok translated ∧
                   tts_synthesize w translated = Ok path) ∧
  (∀ e, generate_hindi_tts w text = Raise e →
     ∃ cause, e = RuntimeError ("TTS generation failed: " +:+ exn_str cause) ∧
       (translate w text = Raise cause ∨
        ∃ translated, translate w text = Ok translated ∧
                      tts_synthesize w translated = Raise cause)).
Proof.
  unfold generate_hindi_tts. split.
  - intros path. destruct (translate w text) as [translated|c]; simpl.
    + destruct (tts_synthesize w translated) as [p|c] eqn:Hs; simpl.
      * split; [intros [= <-]; eauto|]. intros (t' & [= <-] & Hp). congruence.
      * split; [done|]. intros (t' & [= <-] & Hp). congruence.
    + split; [done|]. by intros (t' & ? & _).
  - intros e. destruct (translate w text) as [translated|c]; simpl.
    + destruct (tts_synthesize w translated) as [p|c] eqn:Hs; simpl; [done|].
      intros [= <-]. eauto 10.
    + intros [= <-]. eauto.
Qed.

(** ** The loop over the references *)

Lemma mret_bind {A B} (a : A) (k : A → M B) : mret a ≫= k = k a.
Proof. unfold mret, M_ret, mbind, M_bind. simpl. by destruct (k a). Qed.

Lemma bind_assoc {A B C} (m : M A) (f : A → M B) (g : B → M C) :
  (m ≫= f) ≫= g = m ≫= (λ a, f a ≫= g).
Proof.
  unfold mbind, M_bind. destruct m as [tr [a|e]]; simpl; [|done].
  destruct (f a) as [tr' [b|e]]; simpl; [|done].
  by rewrite app_assoc.
Qed.

Lemma bind_inv {A B} (m : M A) (k : A → M B) (tr : list event) (b : B) :
  m ≫= k = (tr, Ok b) →
  ∃ tr1 a tr2, m = (tr1, Ok a) ∧ k a = (tr2, Ok b) ∧ tr = (tr1 ++ tr2)%list.
Proof.
  unfold mbind, M_bind. destruct m as [tr1 [a|e]]; simpl; [|done].
  destruct (k a) as [tr2 r] eqn:Hk. simpl. intros [= <- ->]. by exists tr1, a, tr2.
Qed.

Lemma process_items_eq (u : Utils) (items acc : list pyval) :
  process_items u items acc =
    (loop_trace u items, Ok (acc ++ articles_of u items)%list).
Proof.
  revert acc. induction items as [|item items IH]; intros acc.
  - simpl. by rewrite app_nil_r.
  - destruct (process_item_returns u item) as (tr & o & Ho).
    rewrite (process_items_cons _ _ _ _ _ _ Ho). simpl.
    unfold loop_trace, articles_of, item_article in *. simpl.
    rewrite Ho. simpl. rewrite IH. simpl.
    destruct o; simpl; try done. by rewrite <- app_assoc.
Qed.

Lemma articles_of_length (u : Utils) (items : list pyval) :
  (length (articles_of u items) ≤ length items)%nat.
Proof.
  unfold articles_of. induction items as [|item items IH]; [done|].
  change (omap (item_article u) (item :: items))
    with (match item_article u item with
          | Some a => a :: omap (item_article u) items
          | None => omap (item_article u) items
          end).
  destruct (item_article u item); simpl length; lia.
Qed.

(** The loop is a run of independent iterations: its result is the
    accumulator followed by the articles of the references that append
    one, in the order of the references, and its trace is the traces of
    the iterations one after the other, made of scraper, classifier and
    extractor calls and log lines only.  It never raises, and a skipped
    or failing reference leaves the other articles as they are. *)
Theorem loop_independent_iterations (u : Utils) (items acc : list pyval) :
  process_items u items acc =
    (loop_trace u items, Ok (acc ++ articles_of u items)%list) ∧
  Forall loop_event (loop_trace u items) ∧
  (length (articles_of u items) ≤ length items)%nat ∧
  (∀ skipped, item_article u skipped = None →
     ∀ before after,
       articles_of u (before ++ skipped :: after) = articles_of u (before ++ after)).
Proof.
  split; [apply process_items_eq|]. split; [|split].
  - pose proof (process_items_trace loop_event) as H.
    specialize (H (λ _ _, I) (λ _, I) (λ _, I) (λ _, I) u items []).
    by rewrite process_items_eq in H.
  - apply articles_of_length.
  - intros skipped Hskip before after. unfold articles_of.
    rewrite !omap_app. simpl. by rewrite Hskip.
Qed.

(** Processing a list of references in two parts, the second part
    starting from the articles of the first, is processing the whole. *)
Theorem process_items_app (u : Utils) (items1 items2 acc : list pyval) :
  process_items u (items1 ++ items2) acc =
    (process_items u items1 acc ≫= process_items u items2).
Proof.
  rewrite (process_items_eq u items1). unfold mbind, M_bind. simpl.
  rewrite !process_items_eq. simpl.
  unfold loop_trace, articles_of. rewrite bind_app, omap_app.
  by rewrite app_assoc.
Qed.

(** ** The handler after the fetch *)

Lemma analyze_fetch_fails (u : Utils) (company : string) (e : exn) :
  (u_fetch_news_articles u [VStr company] ≫= py_iter) = Raise e →
  analyze_company_news u company =
    ([EvFetch [VStr company]; EvLogError ("Critical error: " +:+ exn_str e)],
     Raise (HTTPException 500 "Internal server error")).
Proof.
  intros H. unfold analyze_company_news, analyze_body.
  rewrite bind_emit; cbv beta.
  destruct (u_fetch_news_articles u [VStr company]) as [news_items|e'];
    simpl in H.
  - rewrite bind_lift_ok; cbv beta. rewrite H, bind_lift_raise. reflexivity.
  - injection H as ->. rewrite bind_lift_raise. reflexivity.
Qed.

Lemma analyze_after_fetch (u : Utils) (company : string)
    (news_items : pyval) (items : list pyval) :
  u_fetch_news_articles u [VStr company] = Ok news_items →
  py_iter news_items = Ok items →
  analyze_company_news u company = answer_after_fetch u company items.
Proof.
  intros Hfetch Hiter. unfold analyze_company_news, analyze_body, answer_after_fetch.
  rewrite bind_emit; cbv beta. rewrite Hfetch, bind_lift_ok; cbv beta.
  rewrite Hiter, bind_lift_ok; cbv beta.
  rewrite process_items_eq. rewrite app_nil_l. unfold tts_summary_of.
  destruct (articles_of u items) as [|a l] eqn:Harts.
  - unfold try_except_M, raise, mbind, M_bind, emit.
    cbn [fst snd negb py_truthy length Nat.eqb]. by rewrite app_nil_r.
  - cbv beta iota zeta delta
      [mbind M_bind emit lift raise mret M_ret try_except_M fst snd negb
       py_truthy Nat.eqb].
    change (length (a :: l)) with (S (length l)). cbv beta iota.
    destruct (u_generate_hindi_tts u
                (company +:+ " analysis: " +:+ pretty (S (length l)) +:+
                 " articles processed")) as [path|e]; cbv beta iota.
    + reflexivity.
    + simpl. by rewrite <- app_assoc.
Qed.

(** A fetch that raises, or that returns something the loop cannot
    iterate (a null ['articles'], say), ends the request in the generic
    500 before any reference is looked at. *)
Theorem fetch_stage_failure (u : Utils) (company : string) (e : exn) :
  (u_fetch_news_articles u [VStr company] ≫= py_iter) = Raise e →
  analyze_company_news u company =
    ([EvFetch [VStr company]; EvLogError ("Critical error: " +:+ exn_str e)],
     Raise (HTTPException 500 "Internal server error")).
Proof. apply analyze_fetch_fails. Qed.

Lemma fetch_stage_failure_witness :
  analyze_company_news (utils_with_key Scenario.null_world "key") "Tesla" =
    ([EvFetch [VStr "Tesla"];
      EvLogError ("Critical error: " +:+ exn_str (TypeError "object is not iterable"))],
     Raise (HTTPException 500 "Internal server error")).
Proof.
  apply (fetch_stage_failure (utils_with_key Scenario.null_world "key") "Tesla").
  reflexivity.
Defined.

Lemma analyze_success_inv (u : Utils) (company : string)
    (tr : list event) (data : pyval) :
  analyze_company_news u company = (tr, Ok data) →
  ∃ news_items items path,
    u_fetch_news_articles u [VStr company] = Ok news_items ∧
    py_iter news_items = Ok items ∧
    articles_of u items ≠ [] ∧
    u_generate_hindi_tts u
      (tts_summary_of company (length (articles_of u items))) = Ok path ∧
    tr = (EvFetch [VStr company] :: loop_trace u items ++
          [EvTTS (tts_summary_of company (length (articles_of u items)));
           EvAddTaskRemove path])%list ∧
    data = VDict {[ "company" := VStr company;
                    "articles" := VList (articles_of u items);
                    "tts_path" := VStr path ]}.
Proof.
  intros H.
  destruct (u_fetch_news_articles u [VStr company]) as [news_items|e] eqn:Hfetch.
  2: { rewrite (analyze_fetch_fails u company e) in H; [done|].
       by rewrite Hfetch. }
  destruct (py_iter news_items) as [items|e] eqn:Hiter.
  2: { rewrite (analyze_fetch_fails u company e) in H; [done|].
       rewrite Hfetch. simpl. by rewrite Hiter. }
  rewrite (analyze_after_fetch u company news_items items) in H by done.
  unfold answer_after_fetch in H.
  destruct (articles_of u items) as [|a l] eqn:Harts; [done|].
  destruct (u_generate_hindi_tts u (tts_summary_of company (length (a :: l))))
    as [path|e] eqn:Htts; [|done].
  injection H as <- <-. exists news_items, items, path.
  rewrite Harts. by repeat split.
Qed.

(** A request succeeds exactly when the fetch returns an iterable, at
    least one reference yields an article and the narrator returns a
    path.  The response then echoes the company, lists the articles in
    the order of their references and carries that path; the narrator is
    called once, after the loop, with the one-line summary that counts
    the articles, and the deletion of that same path is scheduled last. *)
Theorem success_characterised (u : Utils) (company : string)
    (tr : list event) (data : pyval) :
  analyze_company_news u company = (tr, Ok data) ↔
  ∃ news_items items path,
    u_fetch_news_articles u [VStr company] = Ok news_items ∧
    py_iter news_items = Ok items ∧
    articles_of u items ≠ [] ∧
    u_generate_hindi_tts u
      (tts_summary_of company (length (articles_of u items))) = Ok path ∧
    tr = (EvFetch [VStr company] :: loop_trace u items ++
          [EvTTS (tts_summary_of company (length (articles_of u items)));
           EvAddTaskRemove path])%list ∧
    data = VDict {[ "company" := VStr company;
                    "articles" := VList (articles_of u items);
                    "tts_path" := VStr path ]}.
Proof.
  split; [apply analyze_success_inv|].
  intros (news_items & items & path & Hfetch & Hiter & Hne & Htts & -> & ->).
  rewrite (analyze_after_fetch u company news_items items) by done.
  unfold answer_after_fetch.
  destruct (articles_of u items) as [|a l] eqn:Harts; [done|].
  by rewrite Htts.
Qed.

(** A failure of the narrator is fatal to the request: the articles are
    dropped, the answer is the generic 500, and no file deletion is
    scheduled. *)
Theorem narrator_failure_fatal (u : Utils) (company : string)
    (news_items : pyval) (items : list pyval) (e : exn) :
  u_fetch_news_articles u [VStr company] = Ok news_items →
  py_iter news_items = Ok items →
  articles_of u items ≠ [] →
  u_generate_hindi_tts u
    (tts_summary_of company (length (articles_of u items))) = Raise e →
  analyze_company_news u company =
    ((EvFetch [VStr company] :: loop_trace u items ++
      [EvTTS (tts_summary_of company (length (articles_of u items)));
       EvLogError ("Critical error: " +:+ exn_str e)])%list,
     Raise (HTTPException 500 "Internal server error")).
Proof.
  intros Hfetch Hiter Hne Htts.
  rewrite (analyze_after_fetch u company news_items items) by done.
  unfold answer_after_fetch.
  destruct (articles_of u items) as [|a l] eqn:Harts; [done|].
  by rewrite Htts.
Qed.

Lemma narrator_failure_fatal_witness :
  analyze_company_news Scenario.mute_utils "Tesla" =
    ((EvFetch [VStr "Tesla"] :: loop_trace Scenario.mute_utils Scenario.tesla_refs ++
      [EvTTS (tts_summary_of "Tesla"
                (length (articles_of Scenario.mute_utils Scenario.tesla_refs)));
       EvLogError ("Critical error: " +:+
         exn_str (RuntimeError "TTS generation failed: translation unavailable"))])%list,
     Raise (HTTPException 500 "Internal server error")).
Proof.
  apply (narrator_failure_fatal Scenario.mute_utils "Tesla"
           (VList Scenario.tesla_refs) Scenario.tesla_refs).
  - reflexivity.
  - reflexivity.
  - vm_compute. discriminate.
  - vm_compute. reflexivity.
Defined.

(** ** Which references are scraped *)

Lemma scraped_urls_none (tr : list event) :
  Forall not_scrape tr → scraped_urls tr = [].
Proof.
  unfold scraped_urls. induction 1 as [|ev tr Hev _ IH]; [done|].
  destruct ev; try done; simpl in *; by rewrite IH.
Qed.

Lemma scraped_urls_app (tr1 tr2 : list event) :
  scraped_urls (tr1 ++ tr2) = (scraped_urls tr1 ++ scraped_urls tr2)%list.
Proof. apply omap_app. Qed.

Lemma scraped_urls_scrape (url : string) (tr : list event) :
  scraped_urls (EvScrape url :: tr) = url :: scraped_urls tr.
Proof. reflexivity. Qed.

Lemma try_except_cons {A} (ev : event) (m : M A) (h : exn → M A) :
  try_except_M (ev :: m.1, m.2) h =
    (ev :: (try_except_M m h).1, (try_except_M m h).2).
Proof. unfold try_except_M. simpl. by destruct m as [tr [a|e]]. Qed.

Lemma process_item_scraped_urls (u : Utils) (item : pyval) :
  scraped_urls (process_item u item).1 = option_list (scrape_target item).
Proof.
  unfold process_item, process_item_body, scrape_target.
  destruct (py_getitem item "url") as [[| | |url| |]|e]; try reflexivity.
  rewrite bind_lift_ok; cbv beta iota.
  destruct (startswith url "http"); simpl negb; cbv iota; [|reflexivity].
  rewrite bind_emit; cbv beta. rewrite try_except_cons. cbn [fst].
  rewrite scraped_urls_scrape.
  rewrite (scraped_urls_none (try_except_M _ _).1); [reflexivity|].
  apply try_except_trace; [|intros e _; repeat trace_step].
  repeat trace_step.
Qed.

Lemma loop_trace_scraped_urls (u : Utils) (items : list pyval) :
  scraped_urls (loop_trace u items) = omap scrape_target items.
Proof.
  unfold loop_trace. induction items as [|item items IH]; [done|].
  change ((item :: items) ≫= _)
    with ((process_item u item).1 ++ (items ≫= λ item, (process_item u item).1))%list.
  rewrite scraped_urls_app, IH, process_item_scraped_urls.
  change (omap scrape_target (item :: items))
    with (match scrape_target item with
          | Some url => url :: omap scrape_target items
          | None => omap scrape_target items
          end).
  by destruct (scrape_target item).
Qed.

(** The scraper is called once for every reference whose ['url'] is a
    string that starts with "http", in the order of the references, and
    for nothing else: references without such a URL cost no call, and no
    reference is scraped twice. *)
Theorem scraper_called_once_each (u : Utils) (company : string)
    (news_items : pyval) (items : list pyval) :
  u_fetch_news_articles u [VStr company] = Ok news_items →
  py_iter news_items = Ok items →
  scraped_urls (analyze_company_news u company).1 = omap scrape_target items.
Proof.
  intros Hfetch Hiter.
  rewrite (analyze_after_fetch u company news_items items) by done.
  unfold answer_after_fetch.
  assert (Hloop : ∀ tail, Forall not_scrape tail →
    scraped_urls (EvFetch [VStr company] :: loop_trace u items ++ tail) =
    omap scrape_target items).
  { intros tail Htail.
    change (scraped_urls (EvFetch ?a :: ?tr)) with (scraped_urls tr).
    rewrite scraped_urls_app, loop_trace_scraped_urls, scraped_urls_none by done.
    by rewrite app_nil_r. }
  destruct (articles_of u items) as [|a l]; simpl fst.
  - apply Hloop. by repeat constructor.
  - destruct (u_generate_hindi_tts u _); simpl fst; apply Hloop;
      by repeat constructor.
Qed.

Lemma scraper_called_once_each_witness :
  scraped_urls (analyze_company_news Scenario.tesla_utils "Tesla").1 =
    omap scrape_target Scenario.tesla_refs ∧
  omap scrape_target Scenario.tesla_refs =
    ["http://blank.example/tesla"; "https://news.example/tesla"].
Proof.
  split; [|reflexivity].
  apply (scraper_called_once_each Scenario.tesla_utils "Tesla"
           (VList Scenario.tesla_refs)); reflexivity.
Defined.

(** ** When an article is appended *)

Lemma bind_ok_eq {A B} (m : M A) (k : A → M B) (b : B) :
  (m ≫= k).2 = Ok b → ∃ a, m.2 = Ok a ∧ (k a).2 = Ok b.
Proof. apply bind_ok_inv. Qed.

Lemma as_text_ok {A} (f : string → result A) (v : pyval) (x : A) :
  (as_text v ≫= f) = Ok x → ∃ s, v = VStr s ∧ f s = Ok x.
Proof. destruct v; simpl; try done. eauto. Qed.

Lemma process_item_body_appended (u : Utils) (item a : pyval) :
  (process_item_body u item).2 = Ok (Appended a) ↔
  ∃ url article title summary content sentiment topics,
    py_getitem item "url" = Ok (VStr url) ∧
    startswith url "http" = true ∧
    u_scrape_article_content u url = Ok article ∧
    py_getitem article "content" = Ok (VStr content) ∧ content ≠ "" ∧
    py_getitem article "title" = Ok title ∧
    py_getitem article "summary" = Ok summary ∧
    u_analyze_sentiment u content = Ok sentiment ∧
    u_extract_key_topics u content = Ok topics ∧
    a = VDict {[ "title" := title; "summary" := summary;
                 "sentiment" := VStr sentiment;
                 "topics" := VList (VStr <$> topics) ]}.
Proof.
  unfold process_item_body. split.
  - intros H.
    apply bind_ok_eq in H as (v & Hurl & H); simpl in Hurl; cbv beta in H.
    destruct v as [| | |url| |]; try done.
    destruct (startswith url "http") eqn:Hpre; cbn [negb] in H; [|done].
    apply bind_ok_eq in H as ([] & _ & H); cbv beta in H.
    apply bind_ok_eq in H as (article & Hs & H); simpl in Hs; cbv beta in H.
    apply bind_ok_eq in H as (c0 & Hc0 & H); simpl in Hc0; cbv beta in H.
    destruct (py_truthy c0) eqn:Htruthy; cbn [negb] in H; [|done].
    apply bind_ok_eq in H as (title & Ht & H); simpl in Ht; cbv beta in H.
    apply bind_ok_eq in H as (summary & Hsum & H); simpl in Hsum; cbv beta in H.
    apply bind_ok_eq in H as (c1 & Hc1 & H); simpl in Hc1; cbv beta in H.
    apply bind_ok_eq in H as ([] & _ & H); cbv beta in H.
    apply bind_ok_eq in H as (sentiment & Hsent & H); cbn [lift snd] in Hsent;
      cbv beta in H.
    apply bind_ok_eq in H as (c2 & Hc2 & H); simpl in Hc2; cbv beta in H.
    apply bind_ok_eq in H as ([] & _ & H); cbv beta in H.
    apply bind_ok_eq in H as (topics & Htop & H); cbn [lift snd] in Htop;
      cbv beta in H.
    injection H as <-.
    apply as_text_ok in Hsent as (content & -> & Hsent).
    rewrite Hc1 in Hc0, Hc2. injection Hc0 as <-. injection Hc2 as <-.
    apply as_text_ok in Htop as (content' & [= <-] & Htop).
    exists url, article, title, summary, content, sentiment, topics.
    repeat split; try done.
    intros ->. discriminate.
  - intros (url & article & title & summary & content & sentiment & topics &
            Hurl & Hpre & Hs & Hc & Hne & Ht & Hsum & Hsent & Htop & ->).
    rewrite Hurl, bind_lift_ok; cbv beta iota. rewrite Hpre; cbn [negb].
    rewrite bind_emit; cbv beta; cbn [snd].
    rewrite Hs, bind_lift_ok; cbv beta.
    rewrite Hc, bind_lift_ok; cbv beta.
    rewrite truthy_str by done. cbn [negb].
    rewrite Ht, bind_lift_ok; cbv beta.
    rewrite Hsum, bind_lift_ok; cbv beta.
    rewrite bind_lift_ok; cbv beta.
    rewrite bind_emit; cbv beta; cbn [snd].
    cbn [as_text]. change (Ok content ≫= u_analyze_sentiment u)
      with (u_analyze_sentiment u content).
    rewrite Hsent, bind_lift_ok; cbv beta.
    rewrite bind_lift_ok; cbv beta.
    rewrite bind_emit; cbv beta; cbn [snd].
    cbn [as_text]. change (Ok content ≫= u_extract_key_topics u)
      with (u_extract_key_topics u content).
    rewrite Htop, bind_lift_ok; cbv beta. reflexivity.
Qed.

Lemma process_item_snd (u : Utils) (item a : pyval) :
  (process_item u item).2 = Ok (Appended a) ↔
  (process_item_body u item).2 = Ok (Appended a).
Proof.
  unfold process_item, try_except_M.
  destruct (process_item_body u item) as [tr [o|e]]; simpl; [done|].
  split; intros [=].
Qed.

(** An iteration appends an article exactly when the reference has a
    string ['url'] that starts with "http", the scraped record has a
    non-empty string content, a title and a summary, and both the
    sentiment and the topics of that content are computed; the article
    then holds that title and summary, the sentiment and the topics. *)
Theorem article_appended_iff (u : Utils) (item a : pyval) :
  item_article u item = Some a ↔
  ∃ url article title summary content sentiment topics,
    py_getitem item "url" = Ok (VStr url) ∧
    startswith url "http" = true ∧
    u_scrape_article_content u url = Ok article ∧
    py_getitem article "content" = Ok (VStr content) ∧ content ≠ "" ∧
    py_getitem article "title" = Ok title ∧
    py_getitem article "summary" = Ok summary ∧
    u_analyze_sentiment u content = Ok sentiment ∧
    u_extract_key_topics u content = Ok topics ∧
    a = VDict {[ "title" := title; "summary" := summary;
                 "sentiment" := VStr sentiment;
                 "topics" := VList (VStr <$> topics) ]}.
Proof.
  rewrite <- process_item_body_appended, <- process_item_snd.
  unfold item_article.
  destruct (process_item u item).2 as [[| |a'|]|e]; split; try done;
    by intros [= ->].
Qed.

(** ** Analysis failures and the articles of a response *)

Lemma item_article_body (u : Utils) (item a : pyval) :
  item_article u item = Some a ↔ (process_item_body u item).2 = Ok (Appended a).
Proof.
  rewrite <- process_item_snd. unfold item_article.
  destruct (process_item u item).2 as [[| |a'|]|e]; split; try done;
    by intros [= ->].
Qed.

Lemma articles_of_elem (u : Utils) (items : list pyval) (a : pyval) :
  a ∈ articles_of u items → ∃ item, item ∈ items ∧ item_article u item = Some a.
Proof. unfold articles_of. by rewrite list_elem_of_omap. Qed.

(** When the classifier fails on every text, no reference yields an
    article, however well it scrapes: the loop logs and skips each of
    them, and the request ends in the generic 500 of the empty case. *)
Theorem sentiment_always_failing (u : Utils) (company : string)
    (news_items : pyval) (items : list pyval) :
  (∀ text, ∃ e, u_analyze_sentiment u text = Raise e) →
  u_fetch_news_articles u [VStr company] = Ok news_items →
  py_iter news_items = Ok items →
  articles_of u items = [] ∧
  analyze_company_news u company =
    ((EvFetch [VStr company] :: loop_trace u items ++
      [EvLogError "Critical error: 404: No articles could be processed"])%list,
     Raise (HTTPException 500 "Internal server error")).
Proof.
  intros Hfail Hfetch Hiter.
  assert (Hnone : articles_of u items = []).
  { destruct (articles_of u items) as [|a l] eqn:Harts; [done|].
    destruct (articles_of_elem u items a) as (item & _ & Ha).
    { rewrite Harts. by left. }
    apply item_article_body, process_item_body_appended in Ha
      as (url & article & title & summary & content & sentiment & topics &
          _ & _ & _ & _ & _ & _ & _ & Hsent & _).
    destruct (Hfail content) as [e He]. congruence. }
  split; [done|].
  rewrite (analyze_after_fetch u company news_items items) by done.
  unfold answer_after_fetch. by rewrite Hnone.
Qed.

Lemma sentiment_always_failing_witness :
  articles_of Scenario.deaf_utils Scenario.tesla_refs = [] ∧
  analyze_company_news Scenario.deaf_utils "Tesla" =
    ((EvFetch [VStr "Tesla"] :: loop_trace Scenario.deaf_utils Scenario.tesla_refs ++
      [EvLogError "Critical error: 404: No articles could be processed"])%list,
     Raise (HTTPException 500 "Internal server error")).
Proof.
  apply (sentiment_always_failing Scenario.deaf_utils "Tesla"
           (VList Scenario.tesla_refs) Scenario.tesla_refs).
  - intros text. eexists. reflexivity.
  - reflexivity.
  - reflexivity.
Defined.

Lemma extract_key_topics_default (w : World) (text : string) (topics : list string) :
  extract_key_topics w text 5 = Ok topics →
  (length topics ≤ 5)%nat ∧ NoDup topics.
Proof.
  unfold extract_key_topics. destruct (nlp w text) as [doc|e]; simpl; [|done].
  intros [= <-]. change 5 with (Z.of_nat 5). rewrite py_slice_to_nonneg. split.
  - rewrite length_take. lia.
  - eapply sublist_NoDup; [|apply sublist_take]. apply NoDup_elements.
Qed.

Lemma analyze_sentiment_in_range (w : World) (text s : string) :
  analyze_sentiment w text = Ok s → s ∈ sentiments.
Proof.
  intros Hs.
  destruct (analyze_sentiment_cases w text) as [[msg Hr]|(s' & Hok & Hin)];
    congruence.
Qed.

(** With the classifier and the extractor of utils.py behind the
    handler, whatever the fetcher and the scraper are, every article of
    a success response has one of the three sentiments and at most five
    topics without duplicates, and the response has at least one
    article. *)
Theorem response_articles_in_range (w : World) (u : Utils) (company : string)
    (data : pyval) :
  u_analyze_sentiment u = analyze_sentiment w →
  u_extract_key_topics u = (λ text, extract_key_topics w text 5) →
  (analyze_company_news u company).2 = Ok data →
  ∃ articles path,
    data = VDict {[ "company" := VStr company;
                    "articles" := VList articles;
                    "tts_path" := VStr path ]} ∧
    articles ≠ [] ∧ Forall well_formed_article articles.
Proof.
  intros Hsent Htop Hdata.
  destruct (analyze_company_news u company) as [tr r] eqn:Hrun.
  simpl in Hdata. subst r.
  apply analyze_success_inv in Hrun
    as (news_items & items & path & _ & _ & Hne & _ & _ & ->).
  exists (articles_of u items), path. split; [done|]. split; [done|].
  apply Forall_forall. intros a Ha.
  apply articles_of_elem in Ha as (item & _ & Ha).
  apply item_article_body, process_item_body_appended in Ha
    as (url & article & title & summary & content & sentiment & topics &
        _ & _ & _ & _ & _ & _ & _ & Hs & Ht & ->).
  rewrite Hsent in Hs. rewrite Htop in Ht.
  exists title, summary, sentiment, topics. split; [done|].
  split; [by eapply analyze_sentiment_in_range|].
  by eapply extract_key_topics_default.
Qed.

Lemma response_articles_in_range_witness :
  ∃ articles path,
    Scenario.summary_response =
      VDict {[ "company" := VStr "Tesla";
               "articles" := VList articles;
               "tts_path" := VStr path ]} ∧
    articles ≠ [] ∧ Forall well_formed_article articles.
Proof.
  apply (response_articles_in_range (Scenario.world [Scenario.good_ref])
           Scenario.summary_utils "Tesla").
  - reflexivity.
  - reflexivity.
  - vm_compute. reflexivity.
Defined.

(** ** app.py *)

Lemma show_articles_lookup (articles : list pyval) (idx : nat) (es : list expander) :
  show_articles idx articles = Ok es →
  length es = length articles ∧
  ∀ i e, es !! i = Some e →
    ∃ a, articles !! i = Some a ∧ show_article (idx + i) a = Ok e ∧
         ex_number e = (idx + i + 1)%nat.
Proof.
  revert idx es. induction articles as [|a rest IH]; intros idx es.
  - simpl. intros [= <-]. split; [done|]. by intros i e.
  - simpl. destruct (show_article idx a) as [e0|err] eqn:Ha; simpl; [|done].
    destruct (show_articles (S idx) rest) as [es0|err] eqn:Hrest; simpl; [|done].
    intros [= <-]. destruct (IH (S idx) es0 Hrest) as [Hlen Hnth].
    split; [simpl; by rewrite Hlen|].
    intros [|i] e; simpl.
    + intros [= <-]. exists a. rewrite Nat.add_0_r. split; [done|]. split; [done|].
      unfold show_article in Ha.
      destruct (py_getitem a "title"); simpl in Ha; [|done].
      destruct (py_getitem a "summary"); simpl in Ha; [|done].
      destruct (py_getitem a "sentiment"); simpl in Ha; [|done].
      destruct (py_getitem a "topics" ≫= str_items); simpl in Ha; [|done].
      by injection Ha as <-.
    + intros He. destruct (Hnth i e He) as (a' & Ha' & Hshow & Hnum).
      exists a'. replace (idx + S i)%nat with (S idx + i)%nat by lia.
      split; [done|]. split; [done|]. lia.
Qed.

(** The articles are displayed one expander each, in the order of the
    response and numbered from 1: the expander at position [i] shows the
    article at position [i] under the number [i + 1]. *)
Theorem articles_numbered_from_one (articles : list pyval) (es : list expander) :
  show_articles 0 articles = Ok es →
  length es = length articles ∧
  ∀ i e, es !! i = Some e →
    ∃ a, articles !! i = Some a ∧ show_article i a = Ok e ∧
         ex_number e = (i + 1)%nat.
Proof.
  intros H. destruct (show_articles_lookup articles 0 es H) as [Hlen Hnth].
  split; [done|]. intros i e He. destruct (Hnth i e He) as (a & ? & ? & ?).
  by exists a.
Qed.

Lemma articles_numbered_from_one_witness :
  ∃ es, show_articles 0 [Scenario.tesla_article; Scenario.tesla_article] = Ok es ∧
    length es = length [Scenario.tesla_article; Scenario.tesla_article] ∧
    ∀ i e, es !! i = Some e →
      ∃ a, [Scenario.tesla_article; Scenario.tesla_article] !! i = Some a ∧
           show_article i a = Ok e ∧ ex_number e = (i + 1)%nat.
Proof.
  eexists. split; [vm_compute; reflexivity|].
  apply (articles_numbered_from_one [Scenario.tesla_article; Scenario.tesla_article]).
  vm_compute. reflexivity.
Defined.

(** An article as the handler builds it is displayed with its own title,
    summary and sentiment, and with its topics joined by ", ". *)
Theorem processed_article_displayed (idx : nat) (title summary : pyval)
    (sentiment : string) (topics : list string) :
  show_article idx
    (VDict {[ "title" := title; "summary" := summary;
              "sentiment" := VStr sentiment;
              "topics" := VList (VStr <$> topics) ]}) =
    Ok {| ex_number := idx + 1; ex_title := title; ex_summary := summary;
          ex_sentiment := VStr sentiment; ex_topics := join ", " topics |}.
Proof.
  unfold show_article.
  change (py_getitem _ "title") with (Ok (A:=pyval) title).
  change (py_getitem _ "summary") with (Ok (A:=pyval) summary).
  change (py_getitem _ "sentiment") with (Ok (A:=pyval) (VStr sentiment)).
  change (py_getitem _ "topics") with (Ok (A:=pyval) (VList (VStr <$> topics))).
  simpl. by rewrite str_items_strings.
Qed.

Lemma api_status_error (r : api_response) :
  400 ≤ api_status r < 600 →
  ∃ msg, api_raise_for_status r = Raise (HTTPError msg).
Proof.
  intros H. unfold api_raise_for_status.
  destruct (Z.leb_spec 400 (api_status r)); [|lia].
  destruct (Z.ltb_spec (api_status r) 600); [|lia].
  simpl. eauto.
Qed.

(** Every failure of the backend reaches the user as an "API request
    failed" message: the handler's exception is an HTTP 500, which the
    frontend's [raise_for_status] turns into the error it catches. *)
Theorem backend_failure_shown (u : Utils) (company api_base : string) (e : exn)
    (audio_get : string → pyval → result string) :
  (analyze_company_news u company).2 = Raise e →
  ∃ msg, main api_base (Ok (http_reply (Raise e))) audio_get =
           Ok (UiError ("API request failed: " +:+ msg)).
Proof.
  intros H. apply analyze_raises_500 in H as ->.
  unfold main. cbn [mbind result_bind http_reply].
  destruct (api_status_error
              {| api_status := 500;
                 api_json := VDict {[ "detail" := VStr "Internal server error" ]} |})
    as [msg Hmsg]; [simpl; lia|].
  rewrite Hmsg. simpl. eauto.
Qed.

Lemma backend_failure_shown_witness :
  ∃ msg, main "http://localhost:8000"
           (Ok (http_reply (Raise (HTTPException 500 "Internal server error"))))
           Scenario.audio_server =
           Ok (UiError ("API request failed: " +:+ msg)).
Proof.
  apply (backend_failure_shown (utils (Scenario.world [])) "Tesla").
  reflexivity.
Defined.

(** [main] runs through to the audio player exactly when the reply has
    no error status, its JSON has ['company'], an iterable ['articles']
    whose elements all display, and ['tts_url'], and the second GET, to
    the base URL followed by that value, returns; the player is given
    the content of that second reply. *)
Theorem screen_shown_iff (api_base : string) (r : api_response)
    (audio_get : string → pyval → result string) (s : screen) :
  main api_base (Ok r) audio_get = Ok (UiScreen s) ↔
  (api_status r < 400 ∨ 600 ≤ api_status r) ∧
  py_getitem (api_json r) "company" = Ok (sc_header s) ∧
  (∃ articles, (py_getitem (api_json r) "articles" ≫= py_iter) = Ok articles ∧
               show_articles 0 articles = Ok (sc_articles s)) ∧
  (∃ tts_url, py_getitem (api_json r) "tts_url" = Ok tts_url ∧
              sc_audio s = (api_base, tts_url) ∧
              audio_get api_base tts_url = Ok (sc_audio_content s)).
Proof.
  unfold main, show_results, api_raise_for_status. cbn [mbind result_bind].
  destruct (Z.leb_spec 400 (api_status r)) as [Hlo|Hlo];
    destruct (Z.ltb_spec (api_status r) 600) as [Hhi|Hhi]; simpl;
    try (split; [done | intros ([?|?] & _); lia]).
  all: destruct (py_getitem (api_json r) "company") as [company|e1]; simpl;
    [|split; [by destruct (is_request_exception e1) | by intros (_ & ? & _)]].
  all: destruct (py_getitem (api_json r) "articles") as [v|e2]; simpl;
    [|split; [by destruct (is_request_exception e2)
             | by intros (_ & _ & (? & ? & _) & _)]].
  all: destruct (py_iter v) as [articles|e3]; simpl;
    [|split; [by destruct (is_request_exception e3)
             | by intros (_ & _ & (? & ? & _) & _)]].
  all: destruct (show_articles 0 articles) as [es|e4] eqn:Hshow; simpl;
    [|split; [by destruct (is_request_exception e4)
             | intros (_ & _ & (? & [= <-] & ?) & _); congruence]].
  all: destruct (py_getitem (api_json r) "tts_url") as [tts|e5]; simpl;
    [|split; [by destruct (is_request_exception e5)
             | by intros (_ & _ & _ & (? & ? & _))]].
  all: destruct (audio_get api_base tts) as [content|e6] eqn:Haudio; simpl;
    [|split; [by destruct (is_request_exception e6)
             | intros (_ & _ & _ & (? & [= <-] & _ & ?)); congruence]].
  all: split;
    [ intros [= <-]; simpl; split; [lia|]; split; [done|]; split; eauto
    | intros (_ & [= Hc] & (? & [= <-] & Hes) & (? & [= <-] & Ha & Hcontent));
      destruct s as [h a au ac]; simpl in *; congruence ].
Qed.

(** When the second GET fails (an invalid URL made of a ['tts_url'] that
    is not a path, a refused connection), [main] shows the error message
    and the player is not reached. *)
Theorem audio_request_failure_shown (api_base : string) (r : api_response)
    (audio_get : string → pyval → result string)
    (company tts_url : pyval) (articles : list pyval) (es : list expander)
    (e : exn) :
  api_status r < 400 ∨ 600 ≤ api_status r →
  py_getitem (api_json r) "company" = Ok company →
  (py_getitem (api_json r) "articles" ≫= py_iter) = Ok articles →
  show_articles 0 articles = Ok es →
  py_getitem (api_json r) "tts_url" = Ok tts_url →
  audio_get api_base tts_url = Raise e →
  main api_base (Ok r) audio_get =
    if is_request_exception e
    then Ok (UiError ("API request failed: " +:+ exn_str e))
    else Raise e.
Proof.
  intros Hstatus Hcompany Harticles Hshow Htts Haudio.
  unfold main, show_results, api_raise_for_status. cbn [mbind result_bind].
  destruct (Z.leb_spec 400 (api_status r));
    destruct (Z.ltb_spec (api_status r) 600); try lia; simpl.
  all: rewrite Hcompany; simpl.
  all: destruct (py_getitem (api_json r) "articles") as [v|]; simpl in *; [|done].
  all: rewrite Harticles; simpl; rewrite Hshow; simpl; rewrite Htts; simpl.
  all: by rewrite Haudio.
Qed.

Lemma audio_request_failure_shown_witness :
  main "http://localhost:8000"
    (Ok {| api_status := 200;
           api_json := VDict {[ "company" := VStr "Tesla"; "articles" := VList [];
                                "tts_url" := VNone ]} |})
    Scenario.audio_server =
    if is_request_exception (RequestException "Invalid URL")
    then Ok (UiError ("API request failed: " +:+ exn_str (RequestException "Invalid URL")))
    else Raise (RequestException "Invalid URL").
Proof.
  apply (audio_request_failure_shown "http://localhost:8000"
           {| api_status := 200;
              api_json := VDict {[ "company" := VStr "Tesla"; "articles" := VList [];
                                   "tts_url" := VNone ]} |}
           Scenario.audio_server (VStr "Tesla") VNone [] []).
  - left. reflexivity.
  - reflexivity.
  - reflexivity.
  - reflexivity.
  - reflexivity.
  - reflexivity.
Defined.
